(** * Overlap resolution and feature store of the map drawing application

    A shallow embedding of
    - [types/index.ts]      (shape kinds, feature records),
    - [config/shapeConfig.ts] (default shape limits),
    - [utils/geometry.ts]   (the validate-and-trim engine over Turf.js),
    - [store/mapStore.ts]   (the Zustand store and its actions),
    followed by the properties of the engine and of the store.

    Turf.js is not part of the repository.  Its four entry points used by
    the engine are the fields of the class [Turf]; every general theorem
    holds for an arbitrary instance.  [BoxTurf] is a small planar kernel on
    axis-aligned rectangles with rational coordinates, used to run the
    engine on concrete drawings. *)

From Stdlib Require Import QArith Ascii.
From stdpp Require Import base tactics option list strings numbers pretty.

Local Open Scope string_scope.
Local Open Scope list_scope.
Local Open Scope Z_scope.

(** ** Completions

    A JavaScript call either returns a value or throws.  Only the calls into
    Turf can throw in the modelled code; what was thrown is never inspected
    ([catch] without a binding), so an abrupt completion carries no
    payload. *)

Inductive Completion (A : Type) : Type :=
  | Normal (a : A)
  | Abrupt.
Arguments Normal {A} a.
Arguments Abrupt {A}.

Global Instance Completion_ret : MRet Completion := λ A a, Normal a.
Global Instance Completion_bind : MBind Completion := λ A B k m,
  match m with
  | Normal a => k a
  | Abrupt => Abrupt
  end.

Global Instance Completion_fmap : FMap Completion := λ A B f m,
  match m with
  | Normal a => Normal (f a)
  | Abrupt => Abrupt
  end.

(** [try { return e } catch { return d }] *)
Definition try_catch {A} (e : Completion A) (d : A) : A :=
  match e with
  | Normal a => a
  | Abrupt => d
  end.

(** ** JavaScript numbers

    Coordinates and radii are [number]s.  The engine itself only tests a
    radius for truthiness and divides it by 1000; everything else happens
    inside Turf.  The number type is therefore a parameter with exactly
    these operations. *)

Class JsNumber (number : Type) : Type := {
  (** [ToBoolean]: false for [0], [-0] and [NaN] *)
  number_truthy : number → bool;
  (** the operator [/] *)
  number_div : number → number → number;
  (** an integer literal *)
  number_lit : Z → number;
}.

(** ** types/index.ts *)

Inductive ShapeType : Set :=
  | polygon
  | rectangle
  | circle
  | linestring.

Global Instance ShapeType_eq_dec : EqDecision ShapeType.
Proof. solve_decision. Defined.

(** The string a [ShapeType] is at run time (template literals print it). *)
Definition ShapeType_to_string (shapeType : ShapeType) : string :=
  match shapeType with
  | polygon => "polygon"
  | rectangle => "rectangle"
  | circle => "circle"
  | linestring => "linestring"
  end.

(** [DrawingMode = ShapeType | null] *)
Definition DrawingMode : Set := option ShapeType.

Section GeoJSON.
Context {number : Type}.

(** GeoJSON [Position = number[]] *)
Definition Position : Type := list number.

(** GeoJSON [Geometry], one constructor per value of its [type] tag. *)
#[warnings="-register-all"] Inductive Geometry : Type :=
  | Point (coordinates : Position)
  | MultiPoint (coordinates : list Position)
  | LineString (coordinates : list Position)
  | MultiLineString (coordinates : list (list Position))
  | Polygon (coordinates : list (list Position))
  | MultiPolygon (coordinates : list (list (list Position)))
  | GeometryCollection (geometries : list Geometry).

(** [FeatureProperties] *)
Record FeatureProperties : Type := {
  id : string;
  shapeType : ShapeType;
  createdAt : string;
  name : option string;
  radius : option number;
  center : option Position;
}.

(** [MapFeature].  The member [type] is the constant ['Feature'] and is
    left out, as are GeoJSON's optional [id] and [bbox] members of a
    feature, which no code of the repository reads or writes. *)
Record MapFeature : Type := {
  geometry : Geometry;
  properties : FeatureProperties;
}.

(** [Feature<Polygon | MultiPolygon>] as handed to Turf.  Turf's
    [intersect], [booleanContains] and [difference] read the geometry of
    a feature only, so such a feature is modelled by its geometry. *)
Definition PolyFeature : Type := Geometry.

(** [OverlapValidationResult] *)
Record OverlapValidationResult : Type := {
  isValid : bool;
  error : option string;
  trimmedFeature : option MapFeature;
}.
End GeoJSON.

(** [ShapeLimitsConfig] and [ShapeCountsState]: objects with exactly the
    four [ShapeType] keys, only ever read as [o[shapeType]]; modelled as
    the function from the key to the value.  Limits are integers (the
    defaults are; a limit that is not an integer is outside the model). *)
Definition ShapeLimitsConfig : Set := ShapeType → Z.
Definition ShapeCountsState : Set := ShapeType → nat.

Arguments Geometry number : clear implicits.
Arguments Position number : clear implicits.
Arguments FeatureProperties number : clear implicits.
Arguments MapFeature number : clear implicits.
Arguments PolyFeature number : clear implicits.
Arguments OverlapValidationResult number : clear implicits.

(** ** The Turf.js entry points used by utils/geometry.ts *)

Class Turf (number : Type) : Type := {
  (** [turf.circle(center, radius, { steps, units: 'kilometers' })] *)
  turf_circle : Position number → number → nat → Completion (PolyFeature number);
  (** [turf.intersect(turf.featureCollection([a, b]))]: the intersection,
      or [null] when there is none *)
  turf_intersect :
    PolyFeature number → PolyFeature number → Completion (option (PolyFeature number));
  (** [turf.booleanContains(outer, inner)] *)
  turf_booleanContains : PolyFeature number → PolyFeature number → Completion bool;
  (** [turf.difference(turf.featureCollection([a, b]))]: a freshly
      allocated feature for [a] minus [b], or [null] when nothing is left *)
  turf_difference :
    PolyFeature number → PolyFeature number → Completion (option (PolyFeature number));
}.

(** ** config/shapeConfig.ts *)

Definition DEFAULT_SHAPE_LIMITS : ShapeLimitsConfig := λ shapeType,
  match shapeType with
  | polygon => 10
  | rectangle => 10
  | circle => 5
  | linestring => 20
  end.

(** ** utils/geometry.ts *)

Section Geometry.
Context {number : Type} `{!JsNumber number} `{!Turf number}.

Definition circleToPolygon (center : Position number) (radiusMeters : number)
    (steps : nat) : Completion (PolyFeature number) :=
  turf_circle center (number_div radiusMeters (number_lit 1000)) steps.

(** [feature.properties.center && feature.properties.radius]: an array is
    always truthy, a number is truthy unless it is [0] or [NaN]. *)
Definition center_and_radius (feature : MapFeature number)
    : option (Position number * number) :=
  match center (properties feature), radius (properties feature) with
  | Some c, Some r => if number_truthy r then Some (c, r) else None
  | _, _ => None
  end.

(** [geometry.type === 'Polygon' || geometry.type === 'MultiPolygon'] *)
Definition is_polygon_geometry (g : Geometry number) : bool :=
  match g with
  | Polygon _ | MultiPolygon _ => true
  | _ => false
  end.

Definition getFeatureAsPolygon (feature : MapFeature number)
    : Completion (option (PolyFeature number)) :=
  if decide (shapeType (properties feature) = linestring) then
    Normal None
  else
    match (if decide (shapeType (properties feature) = circle)
           then center_and_radius feature else None) with
    | Some (c, r) => Some <$> circleToPolygon c r 64
    | None =>
        if is_polygon_geometry (geometry feature)
        then Normal (Some (geometry feature))
        else Normal None
    end.

Definition checkFeaturesOverlap (feature1 feature2 : PolyFeature number) : bool :=
  try_catch (intersection ← turf_intersect feature1 feature2;
             Normal (bool_decide (intersection ≠ None)))
            false.

Definition isFullyEnclosed (innerFeature outerFeature : PolyFeature number) : bool :=
  try_catch (turf_booleanContains outerFeature innerFeature) false.

Definition trimPolygon (newPolygon existingPolygon : PolyFeature number)
    : option (PolyFeature number) :=
  try_catch (turf_difference newPolygon existingPolygon) None.

(** [existingFeatures.filter(..).map(f => ({ feature: f, polygon:
    getFeatureAsPolygon(f) })).filter(item => item.polygon !== null)] *)
Definition existingPolygonsOf (existingFeatures : list (MapFeature number))
    : Completion (list (MapFeature number * PolyFeature number)) :=
  items ← mapM (λ f, polygon ← getFeatureAsPolygon f; Normal (f, polygon))
             (filter (λ f, shapeType (properties f) ≠ linestring) existingFeatures);
  Normal (omap (λ item : MapFeature number * option (PolyFeature number),
                  (item.1 ,.) <$> item.2) items).

(** The [for ... of existingPolygons] loop.  It either leaves the function
    with a result ([inl]) or runs to the end ([inr]).  The loop variable
    [currentPolygon] is threaded together with [replaced], which records
    whether it has been assigned since it was initialised with
    [newPolygon]: [turf.difference] allocates its result, so after the
    loop [currentPolygon !== newPolygon] (a comparison of references) holds
    exactly when some assignment took place. *)
Fixpoint trimLoop (currentPolygon : PolyFeature number) (replaced : bool)
    (existingPolygons : list (MapFeature number * PolyFeature number))
    : OverlapValidationResult number + PolyFeature number * bool :=
  match existingPolygons with
  | [] => inr (currentPolygon, replaced)
  | (_, existingPolygon) :: rest =>
      if negb (checkFeaturesOverlap currentPolygon existingPolygon) then
        trimLoop currentPolygon replaced rest
      else if isFullyEnclosed existingPolygon currentPolygon then
        inl {| isValid := false;
               error := Some "Cannot create a shape that fully encloses an existing shape";
               trimmedFeature := None |}
      else if isFullyEnclosed currentPolygon existingPolygon then
        inl {| isValid := false;
               error := Some "Cannot create a shape that is fully enclosed by an existing shape";
               trimmedFeature := None |}
      else
        match trimPolygon currentPolygon existingPolygon with
        | None =>
            inl {| isValid := false;
                   error := Some "Shape would be completely consumed by overlap trimming";
                   trimmedFeature := None |}
        | Some trimmedPolygon => trimLoop trimmedPolygon true rest
        end
  end.

Definition validateAndTrimFeature (newFeature : MapFeature number)
    (existingFeatures : list (MapFeature number))
    : Completion (OverlapValidationResult number) :=
  if decide (shapeType (properties newFeature) = linestring) then
    Normal {| isValid := true; error := None; trimmedFeature := None |}
  else
    newPolygon ← getFeatureAsPolygon newFeature;
    match newPolygon with
    | None => Normal {| isValid := true; error := None; trimmedFeature := None |}
    | Some newPolygon =>
        existingPolygons ← existingPolygonsOf existingFeatures;
        match trimLoop newPolygon false existingPolygons with
        | inl result => Normal result
        | inr (currentPolygon, true) =>
            Normal {| isValid := true;
                      error := None;
                      trimmedFeature :=
                        Some {| geometry := currentPolygon;
                                properties := properties newFeature |} |}
        | inr (_, false) =>
            Normal {| isValid := true; error := None; trimmedFeature := None |}
        end
    end.
End Geometry.

(** The outcomes of the engine under the names the design gives them. *)
Section Outcomes.
Context {number : Type}.

Definition AcceptedUnchanged : OverlapValidationResult number :=
  {| isValid := true; error := None; trimmedFeature := None |}.

Definition Accepted (trimmed : MapFeature number) : OverlapValidationResult number :=
  {| isValid := true; error := None; trimmedFeature := Some trimmed |}.

Definition RejectedEnclosesExisting : OverlapValidationResult number :=
  {| isValid := false;
     error := Some "Cannot create a shape that fully encloses an existing shape";
     trimmedFeature := None |}.

Definition RejectedEnclosedByExisting : OverlapValidationResult number :=
  {| isValid := false;
     error := Some "Cannot create a shape that is fully enclosed by an existing shape";
     trimmedFeature := None |}.

Definition RejectedFullyConsumed : OverlapValidationResult number :=
  {| isValid := false;
     error := Some "Shape would be completely consumed by overlap trimming";
     trimmedFeature := None |}.
End Outcomes.

(** ** store/mapStore.ts *)

Section Store.
Context {number : Type} `{!JsNumber number} `{!Turf number}.

(** [MapState], the data half of the Zustand store. *)
Record MapState : Type := {
  features : list (MapFeature number);
  drawingMode : DrawingMode;
  shapeLimits : ShapeLimitsConfig;
  errorMessage : option string;
  successMessage : option string;
}.

(** The state [create] starts from. *)
Definition initialState : MapState :=
  {| features := [];
     drawingMode := None;
     shapeLimits := DEFAULT_SHAPE_LIMITS;
     errorMessage := None;
     successMessage := None |}.

Definition getShapeCounts (state : MapState) : ShapeCountsState := λ shapeType',
  length (filter (λ f, shapeType (properties f) = shapeType') (features state)).

Definition isShapeLimitReached (state : MapState) (shapeType : ShapeType) : bool :=
  let counts := getShapeCounts state in
  let limits := shapeLimits state in
  (Z.of_nat (counts shapeType) >=? limits shapeType)%Z.

(** [`Maximum ${limit} ${shapeType}s reached`] *)
Definition limitMessage (limit : Z) (shapeType : ShapeType) : string :=
  "Maximum " +:+ pretty limit +:+ " " +:+ ShapeType_to_string shapeType +:+ "s reached".

Definition setDrawingMode (mode : DrawingMode) (state : MapState) : MapState :=
  match mode with
  | Some shapeType =>
      if isShapeLimitReached state shapeType then
        {| features := features state;
           drawingMode := None;
           shapeLimits := shapeLimits state;
           errorMessage := Some (limitMessage (shapeLimits state shapeType) shapeType);
           successMessage := successMessage state |}
      else
        {| features := features state;
           drawingMode := mode;
           shapeLimits := shapeLimits state;
           errorMessage := None;
           successMessage := successMessage state |}
  | None =>
      {| features := features state;
         drawingMode := mode;
         shapeLimits := shapeLimits state;
         errorMessage := None;
         successMessage := successMessage state |}
  end.

(** [validationResult.error || 'Invalid feature']: the empty string is
    falsy as well. *)
Definition errorOrInvalid (error : option string) : string :=
  match error with
  | Some e => if decide (e = "") then "Invalid feature" else e
  | None => "Invalid feature"
  end.

(** The object literal [newFeature] of [addFeature].  [featureData] has the
    type of a feature whose properties lack [id] and [createdAt]; the spread
    followed by the two fresh members overrides whatever stood under these
    keys, so [featureData] is taken as a feature whose [id] and [createdAt]
    are ignored.  [uuid] and [now] stand for the results of [uuidv4()] and
    [new Date().toISOString()]. *)
Definition newFeatureOf (featureData : MapFeature number) (uuid now : string)
    : MapFeature number :=
  {| geometry := geometry featureData;
     properties :=
       {| id := uuid;
          shapeType := shapeType (properties featureData);
          createdAt := now;
          name := name (properties featureData);
          radius := radius (properties featureData);
          center := center (properties featureData) |} |}.

(** [addFeature], over the imported validation function.  The result pairs
    what the call returns (or that it threw) with the state it leaves. *)
Definition addFeatureWith
    (validate : MapFeature number → list (MapFeature number) →
                Completion (OverlapValidationResult number))
    (state : MapState) (featureData : MapFeature number) (uuid now : string)
    : Completion bool * MapState :=
  if isShapeLimitReached state (shapeType (properties featureData)) then
    (Normal false,
     {| features := features state;
        drawingMode := drawingMode state;
        shapeLimits := shapeLimits state;
        errorMessage :=
          Some (limitMessage (shapeLimits state (shapeType (properties featureData)))
                             (shapeType (properties featureData)));
        successMessage := successMessage state |})
  else
    let newFeature := newFeatureOf featureData uuid now in
    match validate newFeature (features state) with
    | Abrupt => (Abrupt, state)
    | Normal validationResult =>
        if negb (isValid validationResult) then
          (Normal false,
           {| features := features state;
              drawingMode := drawingMode state;
              shapeLimits := shapeLimits state;
              errorMessage := Some (errorOrInvalid (error validationResult));
              successMessage := successMessage state |})
        else
          let featureToAdd := default newFeature (trimmedFeature validationResult) in
          (Normal true,
           {| features := features state ++ [featureToAdd];
              drawingMode := None;
              shapeLimits := shapeLimits state;
              errorMessage := None;
              successMessage :=
                Some (match trimmedFeature validationResult with
                      | Some _ => "Shape auto-trimmed to avoid overlap"
                      | None => ShapeType_to_string (shapeType (properties featureData))
                                +:+ " added successfully"
                      end) |})
    end.

Definition addFeature : MapState → MapFeature number → string → string →
    Completion bool * MapState :=
  addFeatureWith validateAndTrimFeature.

Definition removeFeature (id' : string) (state : MapState) : MapState :=
  {| features := filter (λ f, id (properties f) ≠ id') (features state);
     drawingMode := drawingMode state;
     shapeLimits := shapeLimits state;
     errorMessage := errorMessage state;
     successMessage := Some "Feature removed" |}.

(** [Partial<MapFeature>]: each member may be absent. *)
Record MapFeatureUpdates : Type := {
  geometry_update : option (Geometry number);
  properties_update : option (FeatureProperties number);
}.

(** [{ ...f, ...updates }] *)
Definition applyUpdates (f : MapFeature number) (updates : MapFeatureUpdates)
    : MapFeature number :=
  {| geometry := default (geometry f) (geometry_update updates);
     properties := default (properties f) (properties_update updates) |}.

Definition updateFeature (id' : string) (updates : MapFeatureUpdates)
    (state : MapState) : MapState :=
  {| features :=
       map (λ f, if decide (id (properties f) = id') then applyUpdates f updates else f)
           (features state);
     drawingMode := drawingMode state;
     shapeLimits := shapeLimits state;
     errorMessage := errorMessage state;
     successMessage := successMessage state |}.

Definition clearAllFeatures (state : MapState) : MapState :=
  {| features := [];
     drawingMode := drawingMode state;
     shapeLimits := shapeLimits state;
     errorMessage := errorMessage state;
     successMessage := Some "All features cleared" |}.

(** [exportGeoJSON]: building the file and starting the download happen
    outside the store; what the store records is one of two messages. *)
Definition exportGeoJSON (state : MapState) : MapState :=
  if decide (length (features state) = 0%nat) then
    {| features := features state;
       drawingMode := drawingMode state;
       shapeLimits := shapeLimits state;
       errorMessage := Some "No features to export";
       successMessage := successMessage state |}
  else
    {| features := features state;
       drawingMode := drawingMode state;
       shapeLimits := shapeLimits state;
       errorMessage := errorMessage state;
       successMessage :=
         Some ("Exported " +:+ pretty (length (features state)) +:+ " features") |}.

Definition clearError (state : MapState) : MapState :=
  {| features := features state;
     drawingMode := drawingMode state;
     shapeLimits := shapeLimits state;
     errorMessage := None;
     successMessage := successMessage state |}.

Definition clearSuccess (state : MapState) : MapState :=
  {| features := features state;
     drawingMode := drawingMode state;
     shapeLimits := shapeLimits state;
     errorMessage := errorMessage state;
     successMessage := None |}.

(** [{ ...state.shapeLimits, ...limits }] with [limits] a
    [Partial<ShapeLimitsConfig>] *)
Definition updateShapeLimits (limits : ShapeType → option Z) (state : MapState)
    : MapState :=
  {| features := features state;
     drawingMode := drawingMode state;
     shapeLimits := λ shapeType, default (shapeLimits state shapeType) (limits shapeType);
     errorMessage := errorMessage state;
     successMessage := successMessage state |}.

(** The public operations of the store ([MapActions]), as the calls a
    client can make. *)
Inductive Action : Type :=
  | SetDrawingMode (mode : DrawingMode)
  | AddFeature (featureData : MapFeature number) (uuid now : string)
  | RemoveFeature (id' : string)
  | UpdateFeature (id' : string) (updates : MapFeatureUpdates)
  | ClearAllFeatures
  | ExportGeoJSON
  | GetShapeCounts
  | IsShapeLimitReached (shapeType : ShapeType)
  | ClearError
  | ClearSuccess
  | UpdateShapeLimits (limits : ShapeType → option Z).

(** The state after a call. *)
Definition step (state : MapState) (action : Action) : MapState :=
  match action with
  | SetDrawingMode mode => setDrawingMode mode state
  | AddFeature featureData uuid now => (addFeature state featureData uuid now).2
  | RemoveFeature id' => removeFeature id' state
  | UpdateFeature id' updates => updateFeature id' updates state
  | ClearAllFeatures => clearAllFeatures state
  | ExportGeoJSON => exportGeoJSON state
  | GetShapeCounts => state
  | IsShapeLimitReached _ => state
  | ClearError => clearError state
  | ClearSuccess => clearSuccess state
  | UpdateShapeLimits limits => updateShapeLimits limits state
  end.

Definition run (state : MapState) (actions : list Action) : MapState :=
  foldl step state actions.
End Store.

Arguments MapState number : clear implicits.
Arguments MapFeatureUpdates number : clear implicits.
Arguments Action number : clear implicits.

(** ** Vocabulary of the store properties *)

Section StoreVocabulary.
Context {number : Type} `{!JsNumber number} `{!Turf number}.

(** Every kind is held at most as often as its limit allows. *)
Definition limitsRespected (state : MapState number) : Prop :=
  ∀ shapeType, (Z.of_nat (getShapeCounts state shapeType) ≤ shapeLimits state shapeType)%Z.

(** A call that neither replaces the limits nor gives a stored feature
    another [shapeType]: any call but [updateShapeLimits], and
    [updateFeature id' updates] only when every stored feature that bears
    [id'] has the same [shapeType] after the update as before. *)
Definition keepsLimitsAndShapeTypes (state : MapState number) (action : Action number)
    : bool :=
  match action with
  | UpdateShapeLimits _ => false
  | UpdateFeature id' updates =>
      forallb (λ f, bool_decide (shapeType (properties (applyUpdates f updates)) =
                                 shapeType (properties f)))
              (filter (λ f, id (properties f) = id') (features state))
  | _ => true
  end.

(** A sequence of such calls, each judged in the state it is made in. *)
Fixpoint allKeepLimitsAndShapeTypes (state : MapState number)
    (actions : list (Action number)) : bool :=
  match actions with
  | [] => true
  | action :: rest =>
      keepsLimitsAndShapeTypes state action &&
      allKeepLimitsAndShapeTypes (step state action) rest
  end.

(** A feature after [updateFeature id' updates], next to what it was. *)
Definition updatedFrom (id' : string) (updates : MapFeatureUpdates number)
    (before after : MapFeature number) : Prop :=
  (id (properties before) ≠ id' ∧ after = before) ∨
  (id (properties before) = id' ∧ after = applyUpdates before updates).

(** The state a rejecting call leaves: the old one with a new message. *)
Definition withError (state : MapState number) (message : string) : MapState number :=
  {| features := features state;
     drawingMode := drawingMode state;
     shapeLimits := shapeLimits state;
     errorMessage := Some message;
     successMessage := successMessage state |}.
End StoreVocabulary.

(** ** utils/geometry.ts, the remaining functions *)

Section GeometryRest.
Context {number : Type} `{!JsNumber number} `{!Turf number}.

(** [turf.area], the one further entry point of Turf that the module uses. *)
Variable turf_area : PolyFeature number → Completion number.

Definition calculateArea (feature : MapFeature number) : Completion number :=
  polygon' ← getFeatureAsPolygon feature;
  match polygon' with
  | None => Normal (number_lit 0)
  | Some polygon' => turf_area polygon'
  end.

Definition isPolygonalShape (shapeType : ShapeType) : bool :=
  bool_decide (shapeType = polygon) || bool_decide (shapeType = rectangle) ||
  bool_decide (shapeType = circle).
End GeometryRest.

(** ** hooks/useDrawingHandler.ts

    The handlers of the hook as functions of the drawing mode, the drawing
    state and the clicked point.  A handler returns the next drawing state
    together with the feature it hands to [addFeature], if it does.  The
    React effect that clears the drawing state when the mode changes runs
    outside the handlers and is not part of them. *)

Section DrawingHandler.
Context {number : Type}.

(** Leaflet's [LatLng] *)
Record LatLng : Type := {
  lat : number;
  lng : number;
}.

Record DrawingState : Type := {
  points : list LatLng;
  circleCenter : option LatLng;
  rectStart : option LatLng;
}.

(** The state [useState] starts from and every reset returns to. *)
Definition clearedDrawingState : DrawingState :=
  {| points := []; circleCenter := None; rectStart := None |}.

(** [[p.lng, p.lat]] *)
Definition positionOf (p : LatLng) : Position number := [lng p; lat p].

(** The properties a drawing tool passes: [shapeType] and, for a circle,
    [center] and [radius].  [id] and [createdAt] are absent; they are the
    empty string here and [newFeatureOf] overrides them. *)
Definition drawnProperties (shapeType : ShapeType) (center : option (Position number))
    (radius : option number) : FeatureProperties number :=
  {| id := ""; shapeType := shapeType; createdAt := ""; name := None;
     radius := radius; center := center |}.

(** [createPolygon]: [None] when it returns without calling [addFeature].
    [points[0]] exists whenever the ring is built. *)
Definition createPolygon (points : list LatLng) (shapeType : ShapeType)
    : option (MapFeature number) :=
  if decide (length points < 3)%nat then None
  else
    let coordinates :=
      map positionOf points ++
      match points with
      | first :: _ => [positionOf first]
      | [] => []
      end in
    Some {| geometry := Polygon [coordinates];
            properties := drawnProperties shapeType None None |}.

Definition createRectangle (start finish : LatLng) : MapFeature number :=
  {| geometry :=
       Polygon [[ [lng start; lat start];
                  [lng finish; lat start];
                  [lng finish; lat finish];
                  [lng start; lat finish];
                  [lng start; lat start] ]];
     properties := drawnProperties rectangle None None |}.

(** The great-circle distance that [createCircle] computes in floating
    point from the centre and the second point; it is a parameter here. *)
Variable haversineMeters : LatLng → LatLng → number.

Definition createCircle (center radiusPoint : LatLng) : MapFeature number :=
  {| geometry := Point [lng center; lat center];
     properties :=
       drawnProperties circle (Some [lng center; lat center])
                       (Some (haversineMeters center radiusPoint)) |}.

Definition createLineString (points : list LatLng) : option (MapFeature number) :=
  if decide (length points < 2)%nat then None
  else
    Some {| geometry := LineString (map positionOf points);
            properties := drawnProperties linestring None None |}.

Definition handleClick (drawingMode : DrawingMode) (drawingState : DrawingState)
    (latlng : LatLng) : DrawingState * option (MapFeature number) :=
  match drawingMode with
  | None => (drawingState, None)
  | Some circle =>
      match circleCenter drawingState with
      | None =>
          ({| points := points drawingState;
              circleCenter := Some latlng;
              rectStart := rectStart drawingState |}, None)
      | Some center =>
          ({| points := points drawingState;
              circleCenter := None;
              rectStart := rectStart drawingState |},
           Some (createCircle center latlng))
      end
  | Some rectangle =>
      match rectStart drawingState with
      | None =>
          ({| points := points drawingState;
              circleCenter := circleCenter drawingState;
              rectStart := Some latlng |}, None)
      | Some start =>
          ({| points := points drawingState;
              circleCenter := circleCenter drawingState;
              rectStart := None |},
           Some (createRectangle start latlng))
      end
  | Some polygon | Some linestring =>
      ({| points := points drawingState ++ [latlng];
          circleCenter := circleCenter drawingState;
          rectStart := rectStart drawingState |}, None)
  end.

Definition handleDoubleClick (drawingMode : DrawingMode) (drawingState : DrawingState)
    : DrawingState * option (MapFeature number) :=
  match drawingMode with
  | None => (drawingState, None)
  | Some mode =>
      if decide (mode = polygon ∧ (3 ≤ length (points drawingState))%nat) then
        ({| points := [];
            circleCenter := circleCenter drawingState;
            rectStart := rectStart drawingState |},
         createPolygon (points drawingState) polygon)
      else if decide (mode = linestring ∧ (2 ≤ length (points drawingState))%nat) then
        ({| points := [];
            circleCenter := circleCenter drawingState;
            rectStart := rectStart drawingState |},
         createLineString (points drawingState))
      else (drawingState, None)
  end.

(** A run of single clicks in one mode: the state after them and the
    features handed to [addFeature] on the way, in order. *)
Fixpoint handleClicks (drawingMode : DrawingMode) (drawingState : DrawingState)
    (clicks : list LatLng) : DrawingState * list (MapFeature number) :=
  match clicks with
  | [] => (drawingState, [])
  | latlng :: rest =>
      let '(drawingState', created) := handleClick drawingMode drawingState latlng in
      let '(final, more) := handleClicks drawingMode drawingState' rest in
      (final, option_list created ++ more)
  end.
End DrawingHandler.

Arguments LatLng number : clear implicits.
Arguments DrawingState number : clear implicits.

(** ** components/FeatureLayer.tsx

    What [FeatureRenderer] puts on the map: which Leaflet component, at
    which positions, in which entry of [FEATURE_STYLES].  The popup is the
    same for every component and is left out. *)

Section FeatureLayer.
Context {number : Type} `{!JsNumber number}.

(** A Leaflet position [[latitude, longitude]]; an entry is [None] where the
    array read gave [undefined]. *)
Definition LatLngTuple : Type := option number * option number.

(** [[coords[1], coords[0]]] *)
Definition geoJSONToLatLng (coords : list number) : LatLngTuple :=
  (coords !! 1%nat, coords !! 0%nat).

Definition convertPolygonCoords (coordinates : list (list (list number)))
    : list (list LatLngTuple) :=
  map (λ ring, map geoJSONToLatLng ring) coordinates.

Inductive Rendered : Type :=
  | RenderedCircle (center : LatLngTuple) (radius : number)
  | RenderedPolyline (positions : list LatLngTuple)
  | RenderedPolygon (style : ShapeType) (positions : list (list LatLngTuple))
  | RenderedPolygons (style : ShapeType) (polygons : list (list (list LatLngTuple)))
  | RenderedNothing.

Definition FeatureRenderer (feature : MapFeature number) : Rendered :=
  let shapeType := shapeType (properties feature) in
  match (if decide (shapeType = circle) then center_and_radius feature else None) with
  | Some (center, radius) => RenderedCircle (geoJSONToLatLng center) radius
  | None =>
      match geometry feature with
      | LineString coordinates =>
          if decide (shapeType = linestring)
          then RenderedPolyline (map geoJSONToLatLng coordinates)
          else RenderedNothing
      | Polygon coordinates =>
          if decide (shapeType = polygon ∨ shapeType = rectangle)
          then RenderedPolygon (if decide (shapeType = rectangle) then rectangle else polygon)
                               (convertPolygonCoords coordinates)
          else RenderedNothing
      | MultiPolygon coordinates =>
          RenderedPolygons polygon (map convertPolygonCoords coordinates)
      | _ => RenderedNothing
      end
  end.

(** [FeatureLayer]: one rendering per stored feature, in order. *)
Definition FeatureLayer (features : list (MapFeature number)) : list Rendered :=
  map FeatureRenderer features.
End FeatureLayer.

Arguments Rendered number : clear implicits.
Arguments LatLngTuple number : clear implicits.

(** ** utils/export.ts *)

Section ExportFile.
Context {number : Type} `{!JsNumber number}.

(** The values found in the property bag of an exported feature. *)
Inductive PropertyValue : Type :=
  | StringValue (s : string)
  | NumberValue (n : number)
  | PositionValue (p : Position number)
  | UndefinedValue.

(** An exported feature: its geometry and its property bag, the keys in
    the order the object literal lists them. *)
Record ExportedFeature : Type := {
  exportedGeometry : Geometry number;
  exportedProperties : list (string * PropertyValue);
}.

Definition exportFeature (feature : MapFeature number) : ExportedFeature :=
  {| exportedGeometry := geometry feature;
     exportedProperties :=
       [ ("id", StringValue (id (properties feature)));
         ("shapeType", StringValue (ShapeType_to_string (shapeType (properties feature))));
         ("createdAt", StringValue (createdAt (properties feature)));
         ("name", from_option StringValue UndefinedValue (name (properties feature))) ]
       ++ match radius (properties feature) with
          | Some r => if number_truthy r then [("radius", NumberValue r)] else []
          | None => []
          end
       ++ match center (properties feature) with
          | Some c => [("center", PositionValue c)]
          | None => []
          end |}.

(** [createGeoJSONExport]: the [features] member of the collection. *)
Definition createGeoJSONExport (features : list (MapFeature number))
    : list ExportedFeature :=
  map exportFeature features.
End ExportFile.

Arguments PropertyValue number : clear implicits.
Arguments ExportedFeature number : clear implicits.




(** ** components/DrawingToolbar.tsx *)

Section Toolbar.
Context {number : Type} `{!JsNumber number} `{!Turf number}.


(** The three figures of the statistics panel: Total, Polygons, Lines. *)
Definition statTotal (state : MapState number) : nat := length (features state).

Definition statPolygons (state : MapState number) : nat :=
  (getShapeCounts state polygon + getShapeCounts state rectangle +
   getShapeCounts state circle)%nat.

Definition statLines (state : MapState number) : nat := getShapeCounts state linestring.

End Toolbar.

(** ** Vocabulary of the identifier property *)

Section IdVocabulary.
Context {number : Type} `{!JsNumber number} `{!Turf number}.

(** The identifiers of the stored features, in order. *)
Definition storedIds (state : MapState number) : list string :=
  map (λ f, id (properties f)) (features state).

(** A call that cannot make two stored features share an identifier:
    [addFeature] with an identifier not yet in the store, [updateFeature]
    with no new properties or with properties that bear the identifier it
    addresses, and any other call. *)
Definition keepsIdsApart (state : MapState number) (action : Action number) : bool :=
  match action with
  | AddFeature _ uuid _ => bool_decide (uuid ∉ storedIds state)
  | UpdateFeature id' updates =>
      match properties_update updates with
      | Some p => bool_decide (id p = id')
      | None => true
      end
  | _ => true
  end.

Fixpoint allKeepIdsApart (state : MapState number) (actions : list (Action number))
    : bool :=
  match actions with
  | [] => true
  | action :: rest =>
      keepsIdsApart state action && allKeepIdsApart (step state action) rest
  end.
End IdVocabulary.

(** ** A planar kernel on axis-aligned rectangles

    [BoxTurf] implements the four Turf entry points for regions that are
    finite unions of axis-aligned rectangles with rational coordinates.  A
    polygon is accepted when its single ring is a closed rectangle of
    positive area, a multi-polygon when each member is; any other geometry
    makes the operation throw, as Turf does on input it cannot handle.  The
    disc of [turf_circle] is replaced by its bounding square.  On rectangles
    the three boolean operations are exact: regions intersect when they
    share positive area, containment is non-strict, and a difference is
    [null] exactly when nothing of positive area remains. *)

Module BoxTurf.

#[export] Instance Q_JsNumber : JsNumber Q := {|
  number_truthy q := negb (Qeq_bool q 0);
  number_div a b := Qred (a / b);
  number_lit z := inject_Z z;
|}.

Record Box : Set := {
  xmin : Q;
  ymin : Q;
  xmax : Q;
  ymax : Q;
}.

Definition qmin (a b : Q) : Q := if Qle_bool a b then a else b.
Definition qmax (a b : Q) : Q := if Qle_bool a b then b else a.
Definition qlt (a b : Q) : bool := negb (Qle_bool b a).

Definition has_area (b : Box) : bool :=
  qlt (xmin b) (xmax b) && qlt (ymin b) (ymax b).

(** The rectangle a closed five-point ring describes, if it describes one
    (its sides parallel to the axes, starting along either axis). *)
Definition ring_box (ring : list (Position Q)) : option Box :=
  match ring with
  | [[ax; ay]; [bx; b_y]; [cx; cy]; [dx; dy]; [ex; ey]] =>
      let closed := Qeq_bool ax ex && Qeq_bool ay ey in
      let along_x := Qeq_bool ay b_y && Qeq_bool bx cx && Qeq_bool cy dy && Qeq_bool dx ax in
      let along_y := Qeq_bool ax bx && Qeq_bool b_y cy && Qeq_bool cx dx && Qeq_bool dy ay in
      let b := {| xmin := qmin ax cx; ymin := qmin ay cy;
                  xmax := qmax ax cx; ymax := qmax ay cy |} in
      if closed && (along_x || along_y) && has_area b then Some b else None
  | _ => None
  end.

Definition polygon_box (rings : list (list (Position Q))) : option Box :=
  match rings with
  | [ring] => ring_box ring
  | _ => None
  end.

Definition geometry_boxes (g : Geometry Q) : option (list Box) :=
  match g with
  | Polygon rings => b ← polygon_box rings; Some [b]
  | MultiPolygon polygons => mapM polygon_box polygons
  | _ => None
  end.

Definition box_ring (b : Box) : list (Position Q) :=
  [[xmin b; ymin b]; [xmax b; ymin b]; [xmax b; ymax b]; [xmin b; ymax b];
   [xmin b; ymin b]].

Definition boxes_geometry (bs : list Box) : Geometry Q :=
  match bs with
  | [b] => Polygon [box_ring b]
  | _ => MultiPolygon (map (λ b, [box_ring b]) bs)
  end.

(** The common part of two rectangles, when it has positive area. *)
Definition box_meet (b c : Box) : option Box :=
  let m := {| xmin := qmax (xmin b) (xmin c); ymin := qmax (ymin b) (ymin c);
              xmax := qmin (xmax b) (xmax c); ymax := qmin (ymax b) (ymax c) |} in
  if has_area m then Some m else None.

(** [b] minus [c], cut into at most four rectangles: the strips of [b] left
    and right of the common part, then the pieces below and above it. *)
Definition box_minus (b c : Box) : list Box :=
  match box_meet b c with
  | None => [b]
  | Some m =>
      filter (λ p, has_area p = true)
        [ {| xmin := xmin b; ymin := ymin b; xmax := xmin m; ymax := ymax b |};
          {| xmin := xmax m; ymin := ymin b; xmax := xmax b; ymax := ymax b |};
          {| xmin := xmin m; ymin := ymin b; xmax := xmax m; ymax := ymin m |};
          {| xmin := xmin m; ymin := ymax m; xmax := xmax m; ymax := ymax b |} ]
  end.

Definition region_minus (bs cs : list Box) : list Box :=
  foldl (λ rest c, rest ≫= (λ b, box_minus b c)) bs cs.

Definition region_meet (bs cs : list Box) : list Box :=
  bs ≫= (λ b, omap (box_meet b) cs).

Definition boxes_or_throw (g : Geometry Q) : Completion (list Box) :=
  match geometry_boxes g with
  | Some bs => Normal bs
  | None => Abrupt
  end.

Definition some_if_nonempty (bs : list Box) : option (Geometry Q) :=
  match bs with
  | [] => None
  | _ => Some (boxes_geometry bs)
  end.

#[export] Instance kernel : Turf Q := {|
  turf_circle c r steps :=
    match c with
    | x :: y :: _ =>
        Normal (Polygon [box_ring {| xmin := Qred (x - r); ymin := Qred (y - r);
                                     xmax := Qred (x + r); ymax := Qred (y + r) |}])
    | _ => Abrupt
    end;
  turf_intersect a b :=
    bs ← boxes_or_throw a; cs ← boxes_or_throw b;
    Normal (some_if_nonempty (region_meet bs cs));
  turf_booleanContains outer inner :=
    outers ← boxes_or_throw outer; inners ← boxes_or_throw inner;
    Normal (match region_minus inners outers with [] => true | _ => false end);
  turf_difference a b :=
    bs ← boxes_or_throw a; cs ← boxes_or_throw b;
    Normal (some_if_nonempty (region_minus bs cs));
|}.

(** The same kernel with a difference that always throws: a kernel that
    fails where the engine has to trim. *)
Definition withoutDifference : Turf Q := {|
  turf_circle := turf_circle (Turf := kernel);
  turf_intersect := turf_intersect (Turf := kernel);
  turf_booleanContains := turf_booleanContains (Turf := kernel);
  turf_difference _ _ := Abrupt;
|}.

End BoxTurf.

(** ** Concrete drawings

    Rectangles as the drawing handler builds them, and the features they
    become once stored.  They are run on [BoxTurf]. *)

Module Drawings.
Import BoxTurf.
Local Open Scope Q_scope.

(** [createRectangle]: the ring from [start] to the opposite corner. *)
Definition square (x0 y0 x1 y1 : Q) : Geometry Q :=
  Polygon [[[x0; y0]; [x1; y0]; [x1; y1]; [x0; y1]; [x0; y0]]].

(** What a drawing tool hands to [addFeature]: no [id], no [createdAt]. *)
Definition drawn (shapeType : ShapeType) (g : Geometry Q) : MapFeature Q :=
  {| geometry := g;
     properties := {| id := ""; shapeType := shapeType; createdAt := "";
                      name := None; radius := None; center := None |} |}.

(** [createCircle]: a point geometry, centre and radius in the properties. *)
Definition drawnCircle (x y r : Q) : MapFeature Q :=
  {| geometry := Point [x; y];
     properties := {| id := ""; shapeType := circle; createdAt := "";
                      name := None; radius := Some r; center := Some [x; y] |} |}.

Definition stamp : string := "2024-01-01T00:00:00.000Z".

Definition stored (id' : string) (featureData : MapFeature Q) : MapFeature Q :=
  newFeatureOf featureData id' stamp.

Definition outerSquare : MapFeature Q := drawn rectangle (square 0 0 10 10).
Definition innerSquare : MapFeature Q := drawn polygon (square 2 2 4 4).
Definition shiftedSquare : MapFeature Q := drawn rectangle (square 5 5 15 15).
Definition farSquare : MapFeature Q := drawn polygon (square 20 20 30 30).
Definition twinSquare : MapFeature Q := drawn polygon (square 0 0 10 10).
Definition stripSquare : MapFeature Q := drawn polygon (square 11 6 12 7).
Definition path : MapFeature Q := drawn linestring (LineString [[1; 1]; [9; 9]]).

(** A ring of two points: no polygon, the kernel throws on it. *)
Definition brokenRing : Geometry Q := Polygon [[[0; 0]; [1; 1]]].

(** A feature tagged as a circle that carries a polygon and no radius. *)
Definition circleWithoutRadius : MapFeature Q :=
  {| geometry := square 2 2 4 4;
     properties := {| id := ""; shapeType := circle; createdAt := "";
                      name := None; radius := None; center := Some [3; 3] |} |}.

(** A store holding one accepted feature. *)
Definition storeWith (f : MapFeature Q) : MapState Q :=
  {| features := [f];
     drawingMode := None;
     shapeLimits := DEFAULT_SHAPE_LIMITS;
     errorMessage := None;
     successMessage := None |}.

(** Five circles side by side and one path, added to the initial store. *)
Definition fiveCirclesAndPath : MapState Q :=
  run initialState
    [ AddFeature (drawnCircle 0 0 1000) "c1" stamp;
      AddFeature (drawnCircle 10 0 1000) "c2" stamp;
      AddFeature (drawnCircle 20 0 1000) "c3" stamp;
      AddFeature (drawnCircle 30 0 1000) "c4" stamp;
      AddFeature (drawnCircle 40 0 1000) "c5" stamp;
      AddFeature path "p1" stamp ].

(** An update that retags a feature as a circle. *)
Definition retagAsCircle : MapFeatureUpdates Q :=
  {| geometry_update := None;
     properties_update :=
       Some {| id := "p1"; shapeType := circle; createdAt := stamp;
               name := None; radius := None; center := None |} |}.

(** An update that replaces the geometry. *)
Definition moveAway : MapFeatureUpdates Q :=
  {| geometry_update := Some (square 20 20 30 30);
     properties_update := None |}.
End Drawings.

(** ** Further drawings *)

Module Sketches.
Import BoxTurf Drawings.
Local Open Scope Q_scope.

(** The point clicked at longitude [x] and latitude [y]. *)
Definition corner (x y : Q) : LatLng Q := {| lat := y; lng := x |}.

Definition triangleClicks : list (LatLng Q) := [corner 0 0; corner 4 0; corner 0 3].

(** What [createPolygon] makes of these clicks. *)
Definition triangle : MapFeature Q :=
  {| geometry := Polygon [[[0; 0]; [4; 0]; [0; 3]; [0; 0]]];
     properties := drawnProperties polygon None None |}.

(** A circle of five kilometres around the origin, and a square that
    reaches into it. *)
Definition wideCircle : MapFeature Q := drawnCircle 0 0 5000.
Definition cornerSquare : MapFeature Q := drawn polygon (square 3 3 10 10).

(** What is left of the bounding square of [wideCircle] outside
    [cornerSquare]. *)
Definition wideCircleTrimmed : Geometry Q :=
  MultiPolygon [[box_ring {| xmin := -5; ymin := -5; xmax := 3; ymax := 5 |}];
                [box_ring {| xmin := 3; ymin := -5; xmax := 5; ymax := 3 |}]].

(** What is left of [shiftedSquare] outside [outerSquare]. *)
Definition shiftedSquareTrimmed : Geometry Q :=
  MultiPolygon [[box_ring {| xmin := 10; ymin := 5; xmax := 15; ymax := 15 |}];
                [box_ring {| xmin := 5; ymin := 10; xmax := 10; ymax := 15 |}]].

(** An area function that always throws. *)
Definition noArea : PolyFeature Q → Completion Q := λ _, Abrupt.

(** A distance that is zero between a point and itself. *)
Definition distanceOrZero (a b : LatLng Q) : Q :=
  if Qeq_bool (lat a) (lat b) && Qeq_bool (lng a) (lng b) then 0 else 1000.

(** Three additions under fresh identifiers, a removal, and an update that
    keeps the identifier. *)
Definition freshRun : list (Action Q) :=
  [ AddFeature outerSquare "a" stamp;
    AddFeature farSquare "b" stamp;
    AddFeature path "c" stamp;
    RemoveFeature "b";
    UpdateFeature "a" moveAway;
    AddFeature innerSquare "b" stamp ].

(** A new limit of three circles. *)
Definition threeCircles : ShapeType → option Z := λ shapeType,
  match shapeType with
  | circle => Some 3%Z
  | _ => None
  end.
End Sketches.

(** * Properties of the engine *)

Section EngineProperties.
Context {number : Type} `{!JsNumber number} `{!Turf number}.

Implicit Types (newFeature feature : MapFeature number).
Implicit Types (existingFeatures : list (MapFeature number)).
Implicit Types (existingPolygons skipped rest : list (MapFeature number * PolyFeature number)).
Implicit Types (currentPolygon newPolygon existingPolygon : PolyFeature number).

(** The loop over a concatenation runs the first part and, unless that
    part left the function, continues with the second from where the first
    stopped. *)
Lemma trimLoop_app currentPolygon replaced existingPolygons rest :
  trimLoop currentPolygon replaced (existingPolygons ++ rest) =
  match trimLoop currentPolygon replaced existingPolygons with
  | inl result => inl result
  | inr (currentPolygon', replaced') => trimLoop currentPolygon' replaced' rest
  end.
Proof.
  revert currentPolygon replaced.
  induction existingPolygons as [|[f e] l IH]; intros c r; simpl; [done|].
  destruct (checkFeaturesOverlap c e); simpl; [|apply IH].
  destruct (isFullyEnclosed e c); [done|].
  destruct (isFullyEnclosed c e); [done|].
  destruct (trimPolygon c e); [apply IH|done].
Qed.

(** What the function returns once the candidate and the existing features
    have been converted. *)
Lemma validateAndTrimFeature_converted newFeature existingFeatures newPolygon
    existingPolygons :
  getFeatureAsPolygon newFeature = Normal (Some newPolygon) →
  existingPolygonsOf existingFeatures = Normal existingPolygons →
  validateAndTrimFeature newFeature existingFeatures =
  match trimLoop newPolygon false existingPolygons with
  | inl result => Normal result
  | inr (currentPolygon, true) =>
      Normal (Accepted {| geometry := currentPolygon;
                          properties := properties newFeature |})
  | inr (_, false) => Normal AcceptedUnchanged
  end.
Proof.
  intros Hnew Hex. unfold validateAndTrimFeature.
  destruct (decide (shapeType (properties newFeature) = linestring)) as [Hl|_].
  { unfold getFeatureAsPolygon in Hnew. rewrite decide_True in Hnew by done. done. }
  rewrite Hnew. simpl. rewrite Hex. simpl.
  by destruct (trimLoop newPolygon false existingPolygons) as [|[? []]].
Qed.

(** A feature that is not a line string and whose conversion is not taken
    over by the circle branch is converted according to its geometry. *)
Lemma getFeatureAsPolygon_by_geometry feature :
  shapeType (properties feature) ≠ linestring →
  (shapeType (properties feature) = circle → center_and_radius feature = None) →
  getFeatureAsPolygon feature =
  Normal (if is_polygon_geometry (geometry feature) then Some (geometry feature) else None).
Proof.
  intros Hl Hc. unfold getFeatureAsPolygon.
  rewrite decide_False by done.
  destruct (decide (shapeType (properties feature) = circle)) as [Hcirc|_].
  - rewrite (Hc Hcirc). by destruct (is_polygon_geometry _).
  - by destruct (is_polygon_geometry _).
Qed.

(** C6.  A line-string candidate is accepted unchanged whatever the
    existing features are and whatever the kernel would answer: the
    function returns before any feature is converted or compared. *)
Theorem validateAndTrimFeature_linestring newFeature existingFeatures :
  shapeType (properties newFeature) = linestring →
  validateAndTrimFeature newFeature existingFeatures = Normal AcceptedUnchanged.
Proof.
  intros Hl. unfold validateAndTrimFeature. by rewrite decide_True.
Qed.

(** C9, amended.  A polygon or rectangle candidate, or a circle candidate
    without a centre or without a radius, whose geometry is neither a
    polygon nor a multi-polygon has no polygonal form, and is accepted
    unchanged whatever the existing features are. *)
Theorem validateAndTrimFeature_without_polygon newFeature existingFeatures :
  is_polygon_geometry (geometry newFeature) = false →
  shapeType (properties newFeature) = polygon ∨
  shapeType (properties newFeature) = rectangle ∨
  (shapeType (properties newFeature) = circle ∧
   (center (properties newFeature) = None ∨ radius (properties newFeature) = None)) →
  getFeatureAsPolygon newFeature = Normal None ∧
  validateAndTrimFeature newFeature existingFeatures = Normal AcceptedUnchanged.
Proof.
  intros Hg Hkind.
  assert (getFeatureAsPolygon newFeature = Normal None) as Hnone.
  { rewrite getFeatureAsPolygon_by_geometry, Hg; [done| |].
    - destruct Hkind as [->|[->|[-> _]]]; done.
    - intros Hc. destruct Hkind as [Hk|[Hk|[_ Hk]]]; [congruence..|].
      unfold center_and_radius. destruct Hk as [-> | ->]; [done|].
      by destruct (center _). }
  split; [done|]. unfold validateAndTrimFeature.
  destruct (decide _); [done|]. by rewrite Hnone.
Qed.

(** One iteration of the loop at which the candidate, as trimmed so far,
    overlaps the existing polygon and contains it. *)
Lemma trimLoop_current_contains currentPolygon replaced feature existingPolygon rest :
  checkFeaturesOverlap currentPolygon existingPolygon = true →
  turf_booleanContains currentPolygon existingPolygon = Normal true →
  trimLoop currentPolygon replaced ((feature, existingPolygon) :: rest) =
  inl RejectedEnclosesExisting.
Proof.
  intros Ho Hc. simpl. rewrite Ho. simpl.
  unfold isFullyEnclosed at 1. by rewrite Hc.
Qed.

(** One iteration at which the existing polygon contains the candidate and
    the candidate does not contain the existing polygon. *)
Lemma trimLoop_existing_contains currentPolygon replaced feature existingPolygon rest :
  checkFeaturesOverlap currentPolygon existingPolygon = true →
  isFullyEnclosed existingPolygon currentPolygon = false →
  turf_booleanContains existingPolygon currentPolygon = Normal true →
  trimLoop currentPolygon replaced ((feature, existingPolygon) :: rest) =
  inl RejectedEnclosedByExisting.
Proof.
  intros Ho Hn Hc. simpl. rewrite Ho, Hn. simpl.
  unfold isFullyEnclosed. by rewrite Hc.
Qed.

(** The conversion of the existing features when there is one of them. *)
Lemma existingPolygonsOf_singleton feature existingPolygon :
  getFeatureAsPolygon feature = Normal (Some existingPolygon) →
  existingPolygonsOf [feature] = Normal [(feature, existingPolygon)].
Proof.
  intros Hp. unfold existingPolygonsOf.
  assert (shapeType (properties feature) ≠ linestring) as Hl.
  { intros Hl. unfold getFeatureAsPolygon in Hp. by rewrite decide_True in Hp. }
  rewrite filter_cons_True, filter_nil by done.
  simpl. by rewrite Hp.
Qed.

(** The polygonal form of a feature does not depend on its identifier or
    on its time of creation. *)
Lemma getFeatureAsPolygon_newFeatureOf featureData uuid now :
  getFeatureAsPolygon (newFeatureOf featureData uuid now) = getFeatureAsPolygon featureData.
Proof. done. Qed.

(** The two enclosure rejections of the engine, for a candidate against a
    single existing feature. *)
Lemma validateAndTrimFeature_enclosure A B regionA regionB :
  getFeatureAsPolygon A = Normal (Some regionA) →
  getFeatureAsPolygon B = Normal (Some regionB) →
  checkFeaturesOverlap regionA regionB = true →
  checkFeaturesOverlap regionB regionA = true →
  turf_booleanContains regionA regionB = Normal true →
  isFullyEnclosed regionA regionB = false →
  validateAndTrimFeature A [B] = Normal RejectedEnclosesExisting ∧
  validateAndTrimFeature B [A] = Normal RejectedEnclosedByExisting.
Proof.
  intros HA HB Hab Hba Hc Hn. split.
  - rewrite (validateAndTrimFeature_converted _ _ _ _ HA
               (existingPolygonsOf_singleton _ _ HB)).
    by rewrite trimLoop_current_contains.
  - rewrite (validateAndTrimFeature_converted _ _ _ _ HB
               (existingPolygonsOf_singleton _ _ HA)).
    by rewrite trimLoop_existing_contains.
Qed.

(** C1, amended.  At any iteration of the loop at which the candidate, as
    trimmed so far, overlaps the existing polygon and contains it
    ([turf.booleanContains(currentPolygon, existingPolygon)]), the function
    returns the rejection for a shape that fully encloses an existing one. *)
Theorem validateAndTrimFeature_rejects_enclosing newFeature existingFeatures
    newPolygon skipped feature existingPolygon rest currentPolygon replaced :
  getFeatureAsPolygon newFeature = Normal (Some newPolygon) →
  existingPolygonsOf existingFeatures =
    Normal (skipped ++ (feature, existingPolygon) :: rest) →
  trimLoop newPolygon false skipped = inr (currentPolygon, replaced) →
  checkFeaturesOverlap currentPolygon existingPolygon = true →
  turf_booleanContains currentPolygon existingPolygon = Normal true →
  validateAndTrimFeature newFeature existingFeatures = Normal RejectedEnclosesExisting.
Proof.
  intros Hnew Hex Hloop Ho Hc.
  rewrite (validateAndTrimFeature_converted _ _ _ _ Hnew Hex).
  rewrite trimLoop_app, Hloop.
  by rewrite trimLoop_current_contains.
Qed.

(** C3, amended.  [trimPolygon] has two results, a polygon or [null], and
    [null] stands both for a difference that threw and for a difference
    that is empty; at an iteration that reaches the trimming step either
    one makes the function return the same rejection. *)
Theorem trimPolygon_null_for_failure_and_empty newPolygon existingPolygon :
  (trimPolygon newPolygon existingPolygon = None ↔
   turf_difference newPolygon existingPolygon = Abrupt ∨
   turf_difference newPolygon existingPolygon = Normal None) ∧
  ∀ replaced feature rest,
    checkFeaturesOverlap newPolygon existingPolygon = true →
    isFullyEnclosed existingPolygon newPolygon = false →
    isFullyEnclosed newPolygon existingPolygon = false →
    trimPolygon newPolygon existingPolygon = None →
    trimLoop newPolygon replaced ((feature, existingPolygon) :: rest) =
    inl RejectedFullyConsumed.
Proof.
  split.
  - unfold trimPolygon.
    destruct (turf_difference newPolygon existingPolygon) as [[p|]|]; simpl;
      split; intros H; try done; try (by left); try (by right).
    by destruct H.
  - intros replaced feature rest Ho H1 H2 Ht. simpl.
    by rewrite Ho, H1, H2, Ht.
Qed.
End EngineProperties.

(** * Properties of the store *)

Section StoreProperties.
Context {number : Type} `{!JsNumber number} `{!Turf number}.

Implicit Types (state : MapState number) (featureData f : MapFeature number).
Implicit Types (action : Action number) (actions : list (Action number)).
Implicit Types (l : list (MapFeature number)).

(** *** What [addFeature] leaves behind *)

(** The three ways a call of [addFeature] that returns can end. *)
Lemma addFeatureWith_cases validate state featureData uuid now :
  let shapeType' := shapeType (properties featureData) in
  let newFeature := newFeatureOf featureData uuid now in
  (isShapeLimitReached state shapeType' = true ∧
   addFeatureWith validate state featureData uuid now =
   (Normal false, withError state (limitMessage (shapeLimits state shapeType') shapeType')))
  ∨
  (isShapeLimitReached state shapeType' = false ∧
   validate newFeature (features state) = Abrupt ∧
   addFeatureWith validate state featureData uuid now = (Abrupt, state))
  ∨
  (∃ validationResult,
     isShapeLimitReached state shapeType' = false ∧
     validate newFeature (features state) = Normal validationResult ∧
     isValid validationResult = false ∧
     addFeatureWith validate state featureData uuid now =
     (Normal false, withError state (errorOrInvalid (error validationResult))))
  ∨
  (∃ validationResult state',
     isShapeLimitReached state shapeType' = false ∧
     validate newFeature (features state) = Normal validationResult ∧
     isValid validationResult = true ∧
     addFeatureWith validate state featureData uuid now = (Normal true, state') ∧
     features state' =
       features state ++ [default newFeature (trimmedFeature validationResult)] ∧
     shapeLimits state' = shapeLimits state).
Proof.
  intros k nf. unfold addFeatureWith. fold k. fold nf.
  destruct (isShapeLimitReached state k); [by left|right].
  destruct (validate nf (features state)) as [r|]; [right|by left].
  destruct (isValid r) eqn:Hv; simpl.
  - right. by eexists _, _.
  - left. by exists r.
Qed.

(** A result that leaves the loop early rejects and carries no feature. *)
Lemma trimLoop_early_result currentPolygon replaced
    (existingPolygons : list (MapFeature number * PolyFeature number)) result :
  trimLoop currentPolygon replaced existingPolygons = inl result →
  isValid result = false ∧ trimmedFeature result = None.
Proof.
  revert currentPolygon replaced.
  induction existingPolygons as [|[g e] rest IH]; intros c r; simpl; [done|].
  destruct (checkFeaturesOverlap c e); simpl; [|apply IH].
  destruct (isFullyEnclosed e c); [by intros [= <-]|].
  destruct (isFullyEnclosed c e); [by intros [= <-]|].
  destruct (trimPolygon c e); [apply IH|by intros [= <-]].
Qed.

(** A trimmed feature keeps the properties of the candidate. *)
Lemma validateAndTrimFeature_trimmed_properties newFeature l validationResult trimmed :
  validateAndTrimFeature newFeature l = Normal validationResult →
  trimmedFeature validationResult = Some trimmed →
  properties trimmed = properties newFeature.
Proof.
  unfold validateAndTrimFeature.
  destruct (decide _); [by intros [= <-]|].
  destruct (getFeatureAsPolygon newFeature) as [[p|]|]; simpl; [|by intros [= <-]|done].
  destruct (existingPolygonsOf l) as [eps|]; simpl; [|done].
  destruct (trimLoop p false eps) as [r|[c []]] eqn:Hloop.
  - intros [= <-] Ht. apply trimLoop_early_result in Hloop as [_ Hn]. congruence.
  - by intros [= <-] [= <-].
  - by intros [= <-].
Qed.

(** C4.  When [addFeature] returns [false] — the limit is reached or the
    engine rejects — the collection is the one before the call, and so are
    the limits and the drawing mode; only the error message is set. *)
Theorem addFeature_rejection_keeps_collection state featureData uuid now state' :
  addFeature state featureData uuid now = (Normal false, state') →
  features state' = features state ∧
  shapeLimits state' = shapeLimits state ∧
  drawingMode state' = drawingMode state ∧
  is_Some (errorMessage state').
Proof.
  unfold addFeature.
  destruct (addFeatureWith_cases validateAndTrimFeature state featureData uuid now)
    as [[_ ->]|[(_ & _ & ->)|[(r & _ & _ & _ & ->)|(r & s & _ & _ & _ & -> & _)]]];
    intros [= <-]; simpl; eauto.
Qed.

(** When [addFeature] throws, the state is untouched. *)
Lemma addFeature_throw_keeps_state state featureData uuid now state' :
  addFeature state featureData uuid now = (Abrupt, state') → state' = state.
Proof.
  unfold addFeature.
  destruct (addFeatureWith_cases validateAndTrimFeature state featureData uuid now)
    as [[_ ->]|[(_ & _ & ->)|[(r & _ & _ & _ & ->)|(r & s & _ & _ & _ & -> & _)]]];
    by intros [= <-].
Qed.

(** C5.  When the count of the candidate's kind is at or above the limit of
    that kind, [addFeature] returns [false] with the limit message and the
    collection as it was; the outcome is the same for every validation
    function put in the place of the engine, which is therefore not
    consulted. *)
Theorem addFeature_limit_reached state featureData uuid now :
  let shapeType' := shapeType (properties featureData) in
  (shapeLimits state shapeType' ≤ Z.of_nat (getShapeCounts state shapeType'))%Z →
  let rejected :=
    (Normal false, withError state (limitMessage (shapeLimits state shapeType') shapeType')) in
  addFeature state featureData uuid now = rejected ∧
  (∀ validate, addFeatureWith validate state featureData uuid now = rejected) ∧
  features rejected.2 = features state.
Proof.
  intros k Hlim rejected.
  assert (∀ validate, addFeatureWith validate state featureData uuid now = rejected) as H.
  { intros validate. unfold addFeatureWith. fold k.
    unfold isShapeLimitReached. by rewrite (proj2 (Z.geb_le _ _) Hlim). }
  split; [apply H|]. split; [apply H|done].
Qed.
(** *** Enclosure *)

(** C2, amended.  Let the region of [A] contain the region of [B] and not
    the other way round, the kernel reporting that the two intersect.  With
    only [B] in the store, proposing [A] is answered by the engine with the
    rejection for enclosing an existing shape; with only [A] in the store,
    proposing [B] is answered with the rejection for being enclosed by one.
    Both calls of [addFeature] return [false] and leave the collection as
    it was. *)
Theorem enclosure_rejected_both_ways stateA stateB A B idA idB createdA createdB
    uuid now regionA regionB :
  features stateA = [newFeatureOf A idA createdA] →
  features stateB = [newFeatureOf B idB createdB] →
  getFeatureAsPolygon A = Normal (Some regionA) →
  getFeatureAsPolygon B = Normal (Some regionB) →
  checkFeaturesOverlap regionA regionB = true →
  checkFeaturesOverlap regionB regionA = true →
  turf_booleanContains regionA regionB = Normal true →
  isFullyEnclosed regionA regionB = false →
  (validateAndTrimFeature (newFeatureOf A uuid now) (features stateB) =
     Normal RejectedEnclosesExisting ∧
   (addFeature stateB A uuid now).1 = Normal false ∧
   features (addFeature stateB A uuid now).2 = features stateB) ∧
  (validateAndTrimFeature (newFeatureOf B uuid now) (features stateA) =
     Normal RejectedEnclosedByExisting ∧
   (addFeature stateA B uuid now).1 = Normal false ∧
   features (addFeature stateA B uuid now).2 = features stateA).
Proof.
  intros HsA HsB HA HB Hab Hba Hc Hn.
  assert (validateAndTrimFeature (newFeatureOf A uuid now) (features stateB) =
            Normal RejectedEnclosesExisting) as HrA.
  { rewrite HsB.
    by apply (validateAndTrimFeature_enclosure _ (newFeatureOf B idB createdB) regionA regionB). }
  assert (validateAndTrimFeature (newFeatureOf B uuid now) (features stateA) =
            Normal RejectedEnclosedByExisting) as HrB.
  { rewrite HsA.
    by apply (validateAndTrimFeature_enclosure (newFeatureOf A idA createdA) _ regionA regionB). }
  split; (split; [done|]).
  - unfold addFeature.
    destruct (addFeatureWith_cases validateAndTrimFeature stateB A uuid now)
      as [[_ ->]|[(_ & Hv & _)|[(r & _ & _ & _ & ->)|(r & s & _ & Hv & Hvalid & _)]]];
      [done|congruence|done|].
    rewrite HrA in Hv. by injection Hv as <-.
  - unfold addFeature.
    destruct (addFeatureWith_cases validateAndTrimFeature stateA B uuid now)
      as [[_ ->]|[(_ & Hv & _)|[(r & _ & _ & _ & ->)|(r & s & _ & Hv & Hvalid & _)]]];
      [done|congruence|done|].
    rewrite HrB in Hv. by injection Hv as <-.
Qed.

(** *** Removal *)

(** C8.  [removeFeature id'] keeps, in their order and as they are, the
    features whose identifier differs from [id'] and no others.  If no
    feature bears [id'] the collection is unchanged; if exactly one does,
    the collection is the old one with that feature taken out. *)
Theorem removeFeature_takes_out_only_id id' state :
  features (removeFeature id' state) `sublist_of` features state ∧
  (∀ f, f ∈ features (removeFeature id' state) ↔
        f ∈ features state ∧ id (properties f) ≠ id') ∧
  ((∀ f, f ∈ features state → id (properties f) ≠ id') →
   features (removeFeature id' state) = features state) ∧
  (∀ l1 f l2,
     features state = l1 ++ f :: l2 →
     id (properties f) = id' →
     (∀ g, g ∈ l1 ++ l2 → id (properties g) ≠ id') →
     features (removeFeature id' state) = l1 ++ l2).
Proof.
  assert (∀ l, (∀ f, f ∈ l → id (properties f) ≠ id') →
               filter (λ f, id (properties f) ≠ id') l = l) as Hid.
  { induction l as [|x l IH]; intros Hl; [done|].
    rewrite filter_cons_True by (apply Hl; left).
    f_equal. apply IH. intros g Hg. apply Hl. by right. }
  simpl. split; [apply sublist_filter|]. split; [|split].
  - intros f. rewrite list_elem_of_filter. tauto.
  - apply Hid.
  - intros l1 f l2 -> Hf Hrest.
    rewrite filter_app, filter_cons_False by (intros Hne; by apply Hne).
    rewrite <- filter_app. by apply Hid.
Qed.

(** *** Which calls change the collection *)

(** C7, amended.  The collection is changed by [addFeature],
    [removeFeature], [clearAllFeatures] and [updateFeature] only.
    [addFeature] leaves it alone or appends one feature; [removeFeature]
    drops features and keeps the rest in order; [updateFeature id' updates]
    overwrites, position by position, the members given in [updates] in the
    features that bear [id'] and keeps the others.  Every other call leaves
    the collection as it was. *)
Theorem features_changed_by_four_calls_only state action :
  match action with
  | AddFeature featureData uuid now =>
      features (step state action) = features state ∨
      ∃ f, features (step state action) = features state ++ [f]
  | RemoveFeature id' =>
      features (step state action) `sublist_of` features state
  | ClearAllFeatures =>
      features (step state action) = []
  | UpdateFeature id' updates =>
      Forall2 (updatedFrom id' updates) (features state) (features (step state action))
  | _ =>
      features (step state action) = features state
  end.
Proof.
  destruct action as [mode|featureData uuid now|id'|id' updates| | | | | | |limits];
    simpl; try done.
  - destruct mode as [k|]; simpl; [|done]. by destruct (isShapeLimitReached state k).
  - unfold addFeature.
    destruct (addFeatureWith_cases validateAndTrimFeature state featureData uuid now)
      as [[_ ->]|[(_ & _ & ->)|[(r & _ & _ & _ & ->)|(r & s & _ & _ & _ & -> & Hf & _)]]];
      simpl; eauto.
  - apply sublist_filter.
  - induction (features state) as [|f l IH]; simpl; constructor; [|done].
    unfold updatedFrom. destruct (decide (id (properties f) = id')); eauto.
  - unfold exportGeoJSON. by destruct (decide _).
Qed.
(** *** Counts and limits *)

(** Counting a kind in a collection with one feature appended. *)
Lemma getShapeCounts_snoc state state' f shapeType' :
  features state' = features state ++ [f] →
  getShapeCounts state' shapeType' =
  (getShapeCounts state shapeType' +
   if decide (shapeType (properties f) = shapeType') then 1 else 0)%nat.
Proof.
  intros Hf. unfold getShapeCounts. rewrite Hf, filter_app, length_app.
  f_equal. rewrite filter_cons, filter_nil. by destruct (decide _).
Qed.

(** Filtering a collection does not raise the count of any kind. *)
Lemma count_filter_le (P Q : MapFeature number → Prop)
    `{!∀ f, Decision (P f)} `{!∀ f, Decision (Q f)} l :
  (length (filter P (filter Q l)) ≤ length (filter P l))%nat.
Proof.
  induction l as [|f l IH]; [done|].
  rewrite !filter_cons.
  destruct (decide (Q f)); destruct (decide (P f)); rewrite ?filter_cons;
    try destruct (decide (P f)); simpl; try done; lia.
Qed.

(** Mapping a collection by a function that keeps the kind of each of its
    features does not change the count of any kind. *)
Lemma count_map_same_kind (g : MapFeature number → MapFeature number) shapeType' l :
  (∀ f, f ∈ l → shapeType (properties (g f)) = shapeType (properties f)) →
  length (filter (λ f, shapeType (properties f) = shapeType') (map g l)) =
  length (filter (λ f, shapeType (properties f) = shapeType') l).
Proof.
  induction l as [|f l IH]; intros Hg; [done|].
  change (map g (f :: l)) with (g f :: map g l).
  rewrite !filter_cons, Hg by left.
  destruct (decide _); simpl; rewrite IH; try done;
    intros x Hx; apply Hg; by right.
Qed.

(** The feature [addFeature] appends has the kind of the candidate. *)
Lemma featureToAdd_shapeType featureData uuid now l validationResult :
  validateAndTrimFeature (newFeatureOf featureData uuid now) l = Normal validationResult →
  shapeType (properties (default (newFeatureOf featureData uuid now)
                                 (trimmedFeature validationResult))) =
  shapeType (properties featureData).
Proof.
  intros Hv. destruct (trimmedFeature validationResult) as [t|] eqn:Ht; [|done].
  simpl. by rewrite (validateAndTrimFeature_trimmed_properties _ _ _ _ Hv Ht).
Qed.

(** A call that does not replace the limits leaves them as they are. *)
Lemma step_keeps_shapeLimits state action :
  keepsLimitsAndShapeTypes state action = true →
  shapeLimits (step state action) = shapeLimits state.
Proof.
  destruct action as [mode|featureData uuid now|id'|id' updates| | | | | | |limits];
    simpl; try done.
  - destruct mode as [k|]; simpl; [|done]. by destruct (isShapeLimitReached state k).
  - intros _. unfold addFeature.
    by destruct (addFeatureWith_cases validateAndTrimFeature state featureData uuid now)
      as [[_ ->]|[(_ & _ & ->)|[(r & _ & _ & _ & ->)|(r & s & _ & _ & _ & -> & _ & ?)]]].
  - intros _. unfold exportGeoJSON. by destruct (decide _).
Qed.

(** The bound of every count by its limit is kept by each call that
    neither replaces the limits nor gives a feature another kind. *)
Lemma step_keeps_limitsRespected state action :
  keepsLimitsAndShapeTypes state action = true →
  limitsRespected state → limitsRespected (step state action).
Proof.
  intros Hkeep Hinv k.
  rewrite (step_keeps_shapeLimits _ _ Hkeep).
  specialize (Hinv k) as Hk.
  destruct action as [mode|featureData uuid now|id'|id' updates| | | | | | |limits];
    simpl in *; try done.
  - destruct mode as [k'|]; simpl; [|done]. by destruct (isShapeLimitReached state k').
  - unfold addFeature.
    destruct (addFeatureWith_cases validateAndTrimFeature state featureData uuid now)
      as [[_ ->]|[(_ & _ & ->)|[(r & _ & _ & _ & ->)|(r & s & Hlim & Hv & _ & -> & Hf & _)]]];
      simpl; try done.
    rewrite (getShapeCounts_snoc _ _ _ _ Hf), (featureToAdd_shapeType _ _ _ _ _ Hv).
    destruct (decide (shapeType (properties featureData) = k)) as [<-|_]; [|lia].
    unfold isShapeLimitReached in Hlim.
    rewrite Z.geb_leb in Hlim. apply Z.leb_gt in Hlim. lia.
  - unfold getShapeCounts in *. simpl.
    pose proof (count_filter_le (λ f, shapeType (properties f) = k)
                  (λ f, id (properties f) ≠ id') (features state)). lia.
  - unfold getShapeCounts in *. simpl.
    rewrite count_map_same_kind; [done|].
    intros f Hf. destruct (decide _) as [Hid|_]; [|done].
    rewrite forallb_forall in Hkeep.
    eapply bool_decide_eq_true, Hkeep, list_elem_of_In, list_elem_of_filter. done.
  - unfold getShapeCounts in *. simpl. lia.
  - unfold exportGeoJSON. by destruct (decide _).
Qed.

(** The same along a sequence of calls. *)
Lemma run_keeps_limitsRespected actions state :
  allKeepLimitsAndShapeTypes state actions = true →
  limitsRespected state →
  limitsRespected (run state actions) ∧
  shapeLimits (run state actions) = shapeLimits state.
Proof.
  revert state. induction actions as [|a actions IH]; intros state Hall Hinv; [done|].
  simpl in Hall. apply andb_prop in Hall as [Ha Hall].
  destruct (IH (step state a) Hall (step_keeps_limitsRespected _ _ Ha Hinv)) as [H1 H2].
  split; [done|]. unfold run in *. simpl. rewrite H2.
  by apply step_keeps_shapeLimits.
Qed.

(** C10, amended.  Starting from the initial store, as long as no call
    replaces the limits and no call of [updateFeature] gives a stored
    feature another [shapeType], the limits stay the default ones and no
    kind is held more often than its limit allows. *)
Theorem counts_within_limits actions :
  allKeepLimitsAndShapeTypes initialState actions = true →
  limitsRespected (run initialState actions) ∧
  shapeLimits (run initialState actions) = DEFAULT_SHAPE_LIMITS.
Proof.
  intros Hall. apply (run_keeps_limitsRespected actions initialState Hall).
  intros k. by destruct k.
Qed.
End StoreProperties.

(** * Concrete runs

    The general statements at concrete drawings, and the drawings at which
    a statement of the design does not hold of the code.  All of them run
    on [BoxTurf]. *)

Import BoxTurf Drawings.

(** ** The engine *)

(** The candidate [shiftedSquare] is first trimmed by [outerSquare]; what is
    left of it contains [stripSquare], and the candidate is rejected for
    enclosing an existing shape. *)
Lemma validateAndTrimFeature_rejects_enclosing_witness :
  let newFeature := stored "n" shiftedSquare in
  let skipped := [(stored "o" outerSquare, square 0 0 10 10)] in
  let trimmedSoFar :=
    MultiPolygon [[box_ring {| xmin := 10; ymin := 5; xmax := 15; ymax := 15 |}];
                  [box_ring {| xmin := 5; ymin := 10; xmax := 10; ymax := 15 |}]] in
  trimLoop (square 5 5 15 15) false skipped = inr (trimmedSoFar, true) ∧
  turf_booleanContains trimmedSoFar (square 11 6 12 7) = Normal true ∧
  validateAndTrimFeature newFeature [stored "o" outerSquare; stored "s" stripSquare] =
  Normal RejectedEnclosesExisting.
Proof.
  split; [reflexivity|]. split; [reflexivity|].
  apply (validateAndTrimFeature_rejects_enclosing
           (stored "n" shiftedSquare)
           [stored "o" outerSquare; stored "s" stripSquare]
           (square 5 5 15 15)
           [(stored "o" outerSquare, square 0 0 10 10)]
           (stored "s" stripSquare) (square 11 6 12 7) []
           (MultiPolygon [[box_ring {| xmin := 10; ymin := 5; xmax := 15; ymax := 15 |}];
                          [box_ring {| xmin := 5; ymin := 10; xmax := 10; ymax := 15 |}]])
           true); reflexivity.
Defined.

(** C1 as stated fails: [outerSquare] is in the store and contains the
    candidate [innerSquare], which it overlaps; the function returns the
    rejection for being enclosed, not the one for enclosing. *)
Lemma existing_contains_candidate_not_rejected_as_enclosing :
  checkFeaturesOverlap (square 2 2 4 4) (square 0 0 10 10) = true ∧
  turf_booleanContains (square 0 0 10 10) (square 2 2 4 4) = Normal true ∧
  validateAndTrimFeature (stored "n" innerSquare) [stored "o" outerSquare] =
    Normal RejectedEnclosedByExisting ∧
  validateAndTrimFeature (stored "n" innerSquare) [stored "o" outerSquare] ≠
    Normal RejectedEnclosesExisting.
Proof.
  split; [reflexivity|]. split; [reflexivity|]. split; [reflexivity|].
  vm_compute. intros H. discriminate H.
Qed.

(** [outerSquare] contains [innerSquare] and not the other way round. *)
Lemma enclosure_rejected_both_ways_witness :
  (validateAndTrimFeature (newFeatureOf outerSquare "n" stamp)
     (features (storeWith (stored "b" innerSquare))) = Normal RejectedEnclosesExisting ∧
   (addFeature (storeWith (stored "b" innerSquare)) outerSquare "n" stamp).1 = Normal false ∧
   features (addFeature (storeWith (stored "b" innerSquare)) outerSquare "n" stamp).2 =
     features (storeWith (stored "b" innerSquare))) ∧
  (validateAndTrimFeature (newFeatureOf innerSquare "n" stamp)
     (features (storeWith (stored "a" outerSquare))) = Normal RejectedEnclosedByExisting ∧
   (addFeature (storeWith (stored "a" outerSquare)) innerSquare "n" stamp).1 = Normal false ∧
   features (addFeature (storeWith (stored "a" outerSquare)) innerSquare "n" stamp).2 =
     features (storeWith (stored "a" outerSquare))).
Proof.
  apply (enclosure_rejected_both_ways
           (storeWith (stored "a" outerSquare)) (storeWith (stored "b" innerSquare))
           outerSquare innerSquare "a" "b" stamp stamp "n" stamp
           (square 0 0 10 10) (square 2 2 4 4)); reflexivity.
Defined.

(** C2 as stated fails: [twinSquare] covers exactly the region of
    [outerSquare], so each contains the other.  With [outerSquare] in the
    store, proposing [twinSquare] is rejected for enclosing an existing
    shape, not for being enclosed by one. *)
Lemma equal_regions_rejected_as_enclosing :
  getFeatureAsPolygon outerSquare = Normal (Some (square 0 0 10 10)) ∧
  getFeatureAsPolygon twinSquare = Normal (Some (square 0 0 10 10)) ∧
  turf_booleanContains (square 0 0 10 10) (square 0 0 10 10) = Normal true ∧
  validateAndTrimFeature (newFeatureOf twinSquare "n" stamp)
    (features (storeWith (stored "a" outerSquare))) = Normal RejectedEnclosesExisting ∧
  validateAndTrimFeature (newFeatureOf twinSquare "n" stamp)
    (features (storeWith (stored "a" outerSquare))) ≠ Normal RejectedEnclosedByExisting.
Proof.
  do 4 (split; [reflexivity|]).
  vm_compute. intros H. discriminate H.
Qed.

(** C3 as stated fails: the difference throws on a broken ring and is empty
    for a square minus itself, and [trimPolygon] answers both with the same
    value. *)
Lemma trimPolygon_same_for_failure_and_empty :
  turf_difference brokenRing (square 0 0 10 10) = Abrupt ∧
  turf_difference (square 0 0 10 10) (square 0 0 10 10) = Normal None ∧
  trimPolygon brokenRing (square 0 0 10 10) =
  trimPolygon (square 0 0 10 10) (square 0 0 10 10).
Proof. repeat split; reflexivity. Qed.

(** Two squares that overlap in part, on a kernel whose difference throws:
    [trimPolygon] answers [null] and the loop rejects the candidate as
    consumed. *)
Lemma trimPolygon_null_for_failure_and_empty_witness :
  turf_difference (Turf := withoutDifference) (square 5 5 15 15) (square 0 0 10 10) =
    Abrupt ∧
  trimPolygon (Turf0 := withoutDifference) (square 5 5 15 15) (square 0 0 10 10) = None ∧
  trimLoop (Turf0 := withoutDifference) (square 5 5 15 15) false
    [(stored "o" outerSquare, square 0 0 10 10)] = inl RejectedFullyConsumed.
Proof.
  destruct (trimPolygon_null_for_failure_and_empty (Turf0 := withoutDifference)
              (square 5 5 15 15) (square 0 0 10 10)) as [Hnull Hloop].
  split; [reflexivity|]. split.
  - apply Hnull. left. reflexivity.
  - apply Hloop; reflexivity.
Defined.

(** The scenarios of the design: a square against an overlapping square is
    trimmed to the two rectangles that remain of it ... *)
Example shifted_square_is_trimmed :
  validateAndTrimFeature (stored "n" shiftedSquare) [stored "o" outerSquare] =
  Normal (Accepted
    {| geometry :=
         MultiPolygon [[box_ring {| xmin := 10; ymin := 5; xmax := 15; ymax := 15 |}];
                       [box_ring {| xmin := 5; ymin := 10; xmax := 10; ymax := 15 |}]];
       properties := properties (stored "n" shiftedSquare) |}).
Proof. reflexivity. Qed.

(** ... a small circle inside a large one is rejected as enclosed ... *)
Example small_circle_in_large_circle :
  validateAndTrimFeature (stored "n" (drawnCircle 0 0 50)) [stored "o" (drawnCircle 0 0 100)] =
  Normal RejectedEnclosedByExisting.
Proof. reflexivity. Qed.

(** ... and any polygon is accepted as it is into an empty collection. *)
Example first_polygon_is_accepted :
  validateAndTrimFeature (stored "n" outerSquare) [] = Normal AcceptedUnchanged.
Proof. reflexivity. Qed.

(** A path across [outerSquare]. *)
Lemma validateAndTrimFeature_linestring_witness :
  shapeType (properties (stored "p" path)) = linestring ∧
  validateAndTrimFeature (stored "p" path) [stored "o" outerSquare] =
  Normal AcceptedUnchanged.
Proof.
  split; [reflexivity|].
  apply (validateAndTrimFeature_linestring (stored "p" path) [stored "o" outerSquare]).
  reflexivity.
Defined.

(** A circle without a radius that carries a point, over [outerSquare]. *)
Lemma validateAndTrimFeature_without_polygon_witness :
  getFeatureAsPolygon (stored "c" (drawn circle (Point [3; 3]%Q))) = Normal None ∧
  validateAndTrimFeature (stored "c" (drawn circle (Point [3; 3]%Q)))
    [stored "o" outerSquare] = Normal AcceptedUnchanged.
Proof.
  apply (validateAndTrimFeature_without_polygon
           (stored "c" (drawn circle (Point [3; 3]%Q))) [stored "o" outerSquare]).
  - reflexivity.
  - right. right. split; [reflexivity|]. right. reflexivity.
Defined.

(** C9 as stated fails: [circleWithoutRadius] is tagged as a circle and has
    no radius, but carries a polygon; it has a polygonal form and is
    checked against [outerSquare], which rejects it. *)
Lemma circle_without_radius_is_checked :
  shapeType (properties circleWithoutRadius) = circle ∧
  radius (properties circleWithoutRadius) = None ∧
  getFeatureAsPolygon (stored "c" circleWithoutRadius) = Normal (Some (square 2 2 4 4)) ∧
  validateAndTrimFeature (stored "c" circleWithoutRadius) [stored "o" outerSquare] =
    Normal RejectedEnclosedByExisting ∧
  validateAndTrimFeature (stored "c" circleWithoutRadius) [stored "o" outerSquare] ≠
    Normal AcceptedUnchanged.
Proof.
  do 4 (split; [reflexivity|]).
  vm_compute. intros H. discriminate H.
Qed.

(** ** The store *)

(** [innerSquare] proposed to a store that holds [outerSquare]: the engine
    rejects, and the store is left with [outerSquare] alone. *)
Lemma addFeature_rejection_keeps_collection_witness :
  let state := storeWith (stored "o" outerSquare) in
  let state' :=
    withError state "Cannot create a shape that is fully enclosed by an existing shape" in
  addFeature state innerSquare "n" stamp = (Normal false, state') ∧
  features state' = features state ∧
  shapeLimits state' = shapeLimits state ∧
  drawingMode state' = drawingMode state ∧
  is_Some (errorMessage state').
Proof.
  split; [reflexivity|].
  apply (addFeature_rejection_keeps_collection
           (storeWith (stored "o" outerSquare)) innerSquare "n" stamp).
  reflexivity.
Defined.

(** A sixth circle proposed to a store that holds five. *)
Lemma addFeature_limit_reached_witness :
  (shapeLimits fiveCirclesAndPath circle ≤
   Z.of_nat (getShapeCounts fiveCirclesAndPath circle))%Z ∧
  addFeature fiveCirclesAndPath (drawnCircle 50 0 1000) "c6" stamp =
    (Normal false, withError fiveCirclesAndPath "Maximum 5 circles reached") ∧
  (∀ validate,
     addFeatureWith validate fiveCirclesAndPath (drawnCircle 50 0 1000) "c6" stamp =
     (Normal false, withError fiveCirclesAndPath "Maximum 5 circles reached")) ∧
  features (withError fiveCirclesAndPath "Maximum 5 circles reached") =
  features fiveCirclesAndPath.
Proof.
  assert (shapeLimits fiveCirclesAndPath circle ≤
          Z.of_nat (getShapeCounts fiveCirclesAndPath circle))%Z as Hlimit.
  { vm_compute. intros H. discriminate H. }
  split; [exact Hlimit|].
  exact (addFeature_limit_reached fiveCirclesAndPath (drawnCircle 50 0 1000) "c6" stamp
           Hlimit).
Defined.

(** C7 as stated fails: [updateFeature] is a public call of the store and
    replaces the geometry of an accepted feature. *)
Lemma updateFeature_alters_accepted_feature :
  let state := storeWith (stored "o" outerSquare) in
  features (step state (UpdateFeature "o" moveAway)) =
    [ {| geometry := square 20 20 30 30; properties := properties (stored "o" outerSquare) |} ] ∧
  features (step state (UpdateFeature "o" moveAway)) ≠ features state.
Proof.
  split; [reflexivity|].
  vm_compute. intros H. discriminate H.
Qed.

(** Taking the second of three features out of a store, and asking to
    take out one that is not there. *)
Lemma removeFeature_takes_out_only_id_witness :
  let state :=
    {| features := [stored "a" outerSquare; stored "b" farSquare; stored "c" path];
       drawingMode := None; shapeLimits := DEFAULT_SHAPE_LIMITS;
       errorMessage := None; successMessage := None |} in
  features (removeFeature "b" state) = [stored "a" outerSquare; stored "c" path] ∧
  features (removeFeature "z" state) = features state.
Proof.
  intros state. split.
  - destruct (removeFeature_takes_out_only_id "b" state) as (_ & _ & _ & Hone).
    apply (Hone [stored "a" outerSquare] (stored "b" farSquare) [stored "c" path]);
      [reflexivity|reflexivity|].
    intros g Hg. apply list_elem_of_In in Hg.
    destruct Hg as [<-|[<-|[]]]; intros Hid; discriminate Hid.
  - destruct (removeFeature_takes_out_only_id "z" state) as (_ & _ & Hnone & _).
    apply Hnone. intros g Hg. apply list_elem_of_In in Hg.
    destruct Hg as [<-|[<-|[<-|[]]]]; intros Hid; discriminate Hid.
Defined.

(** Five circles and a path, then a rejected sixth circle, a removal, an
    update of a geometry and an export. *)
Lemma counts_within_limits_witness :
  let actions : list (Action Q) :=
    [ AddFeature (drawnCircle 0 0 1000) "c1" stamp;
      AddFeature (drawnCircle 10 0 1000) "c2" stamp;
      AddFeature (drawnCircle 20 0 1000) "c3" stamp;
      AddFeature (drawnCircle 30 0 1000) "c4" stamp;
      AddFeature (drawnCircle 40 0 1000) "c5" stamp;
      AddFeature path "p1" stamp;
      AddFeature (drawnCircle 50 0 1000) "c6" stamp;
      RemoveFeature "c2";
      UpdateFeature "p1" moveAway;
      SetDrawingMode (Some circle);
      ExportGeoJSON ] in
  allKeepLimitsAndShapeTypes initialState actions = true ∧
  getShapeCounts (run initialState actions) circle = 4%nat ∧
  limitsRespected (run initialState actions) ∧
  shapeLimits (run initialState actions) = DEFAULT_SHAPE_LIMITS.
Proof.
  split; [reflexivity|]. split; [reflexivity|].
  apply (counts_within_limits
           [ AddFeature (drawnCircle 0 0 1000) "c1" stamp;
             AddFeature (drawnCircle 10 0 1000) "c2" stamp;
             AddFeature (drawnCircle 20 0 1000) "c3" stamp;
             AddFeature (drawnCircle 30 0 1000) "c4" stamp;
             AddFeature (drawnCircle 40 0 1000) "c5" stamp;
             AddFeature path "p1" stamp;
             AddFeature (drawnCircle 50 0 1000) "c6" stamp;
             RemoveFeature "c2";
             UpdateFeature "p1" moveAway;
             SetDrawingMode (Some circle);
             ExportGeoJSON ]).
  reflexivity.
Defined.

(** C10 as stated fails: the store holds five circles and a path, within
    the default limits, which no call has changed; [updateFeature] retags
    the path as a circle, and six circles stand against a limit of five. *)
Lemma updateFeature_breaks_the_limit :
  limitsRespected fiveCirclesAndPath ∧
  shapeLimits fiveCirclesAndPath = DEFAULT_SHAPE_LIMITS ∧
  shapeLimits (step fiveCirclesAndPath (UpdateFeature "p1" retagAsCircle)) =
    DEFAULT_SHAPE_LIMITS ∧
  getShapeCounts (step fiveCirclesAndPath (UpdateFeature "p1" retagAsCircle)) circle = 6%nat ∧
  DEFAULT_SHAPE_LIMITS circle = 5%Z ∧
  ¬ limitsRespected (step fiveCirclesAndPath (UpdateFeature "p1" retagAsCircle)).
Proof.
  split.
  { intros k. destruct k; vm_compute; intros H; discriminate H. }
  do 4 (split; [reflexivity|]).
  intros H. specialize (H circle). vm_compute in H. apply H. reflexivity.
Qed.

(** * Further properties of the engine *)

Section EngineFurther.
Context {number : Type} `{!JsNumber number} `{!Turf number}.

Implicit Types (newFeature feature f : MapFeature number).
Implicit Types (existingFeatures l : list (MapFeature number)).
Implicit Types (existingPolygons eps : list (MapFeature number * PolyFeature number)).
Implicit Types (currentPolygon newPolygon existingPolygon p e : PolyFeature number).

(** The conversion of the existing features, one feature at a time. *)
Lemma existingPolygonsOf_cons f l :
  existingPolygonsOf (f :: l) =
  if decide (shapeType (properties f) = linestring) then existingPolygonsOf l
  else
    polygon' ← getFeatureAsPolygon f;
    eps ← existingPolygonsOf l;
    Normal (match polygon' with Some e => (f, e) :: eps | None => eps end).
Proof.
  unfold existingPolygonsOf. rewrite filter_cons.
  destruct (decide (shapeType (properties f) = linestring)) as [Hl|Hl].
  - by rewrite decide_False by (intros Hn; by apply Hn).
  - rewrite decide_True by done. simpl.
    destruct (getFeatureAsPolygon f) as [o|]; simpl; [|done].
    destruct (mapM _ _) as [items|]; simpl; [|done].
    by destruct o.
Qed.

(** Every converted pair comes from a stored feature and its polygonal
    form. *)
Lemma existingPolygonsOf_elem l eps f e :
  existingPolygonsOf l = Normal eps → (f, e) ∈ eps →
  f ∈ l ∧ getFeatureAsPolygon f = Normal (Some e).
Proof.
  revert eps. induction l as [|g l IH]; intros eps.
  - intros [= <-] Hin. by apply elem_of_nil in Hin.
  - rewrite existingPolygonsOf_cons.
    destruct (decide _) as [_|_].
    { intros Hl Hin. destruct (IH _ Hl Hin). split; [by right|done]. }
    destruct (getFeatureAsPolygon g) as [o|] eqn:Hg; simpl; [|done].
    destruct (existingPolygonsOf l) as [eps'|]; simpl; [|done].
    intros [= <-] Hin. destruct o as [e'|].
    + apply elem_of_cons in Hin as [[= -> ->]|Hin]; [split; [by left|done]|].
      destruct (IH _ eq_refl Hin). split; [by right|done].
    + destruct (IH _ eq_refl Hin). split; [by right|done].
Qed.

(** X1.  Line strings in the collection play no part: the outcome for a
    candidate is the outcome against the collection without them. *)
Theorem validateAndTrimFeature_ignores_linestrings newFeature existingFeatures :
  validateAndTrimFeature newFeature existingFeatures =
  validateAndTrimFeature newFeature
    (filter (λ f, shapeType (properties f) ≠ linestring) existingFeatures).
Proof.
  assert (existingPolygonsOf
            (filter (λ f, shapeType (properties f) ≠ linestring) existingFeatures) =
          existingPolygonsOf existingFeatures) as Hex.
  { induction existingFeatures as [|f l IH]; [done|].
    rewrite filter_cons. destruct (decide _) as [Hn|Hn].
    - rewrite !existingPolygonsOf_cons, IH. done.
    - rewrite existingPolygonsOf_cons, IH.
      destruct (decide (shapeType (properties f) = linestring)); [done|].
      exfalso. apply Hn. done. }
  unfold validateAndTrimFeature. by rewrite Hex.
Qed.

(** A loop that meets no overlap ends where it started. *)
Lemma trimLoop_without_overlap currentPolygon replaced existingPolygons :
  (∀ item, item ∈ existingPolygons → checkFeaturesOverlap currentPolygon item.2 = false) →
  trimLoop currentPolygon replaced existingPolygons = inr (currentPolygon, replaced).
Proof.
  induction existingPolygons as [|[f e] eps IH]; intros Hno; [done|].
  pose proof (Hno (f, e) ltac:(left)) as Hfe. simpl in Hfe.
  simpl. rewrite Hfe. simpl.
  apply IH. intros item Hin. apply Hno. by right.
Qed.

(** X2.  A candidate that overlaps none of the existing polygons - an
    intersection that throws counts as none - is accepted unchanged; so is
    every candidate against a collection without polygons. *)
Theorem validateAndTrimFeature_without_overlap newFeature existingFeatures
    newPolygon existingPolygons :
  getFeatureAsPolygon newFeature = Normal (Some newPolygon) →
  existingPolygonsOf existingFeatures = Normal existingPolygons →
  (∀ item, item ∈ existingPolygons → checkFeaturesOverlap newPolygon item.2 = false) →
  validateAndTrimFeature newFeature existingFeatures = Normal AcceptedUnchanged.
Proof.
  intros Hnew Hex Hno.
  rewrite (validateAndTrimFeature_converted _ _ _ _ Hnew Hex).
  by rewrite trimLoop_without_overlap.
Qed.

(** The three results with which the loop can leave the function. *)
Lemma trimLoop_rejections currentPolygon replaced existingPolygons result :
  trimLoop currentPolygon replaced existingPolygons = inl result →
  result = RejectedEnclosesExisting ∨ result = RejectedEnclosedByExisting ∨
  result = RejectedFullyConsumed.
Proof.
  revert currentPolygon replaced.
  induction existingPolygons as [|[g e] rest IH]; intros c r; simpl; [done|].
  destruct (checkFeaturesOverlap c e); simpl; [|apply IH].
  destruct (isFullyEnclosed e c); [intros [= <-]; by left|].
  destruct (isFullyEnclosed c e); [intros [= <-]; right; by left|].
  destruct (trimPolygon c e); [apply IH|intros [= <-]; right; by right].
Qed.

(** X3.  Whatever the candidate and the collection, a call that returns
    gives one of five results: accepted unchanged, accepted with a trimmed
    feature that bears the properties of the candidate, or one of the three
    rejections, which carry no feature. *)
Theorem validateAndTrimFeature_results newFeature existingFeatures result :
  validateAndTrimFeature newFeature existingFeatures = Normal result →
  result = AcceptedUnchanged ∨
  (∃ trimmedGeometry,
     result = Accepted {| geometry := trimmedGeometry;
                          properties := properties newFeature |}) ∨
  result = RejectedEnclosesExisting ∨
  result = RejectedEnclosedByExisting ∨
  result = RejectedFullyConsumed.
Proof.
  unfold validateAndTrimFeature.
  destruct (decide _); [intros [= <-]; by left|].
  destruct (getFeatureAsPolygon newFeature) as [[p|]|]; simpl;
    [|intros [= <-]; by left|done].
  destruct (existingPolygonsOf existingFeatures) as [eps|]; simpl; [|done].
  destruct (trimLoop p false eps) as [r|[c []]] eqn:Hloop; intros [= <-].
  - right. right. by apply trimLoop_rejections in Hloop.
  - right. left. by eexists.
  - by left.
Qed.

(** Where the polygon at the end of the loop comes from. *)
Lemma trimLoop_end currentPolygon replaced existingPolygons final replaced' :
  trimLoop currentPolygon replaced existingPolygons = inr (final, replaced') →
  (final = currentPolygon ∧ replaced' = replaced) ∨
  (replaced' = true ∧
   ∃ item p, item ∈ existingPolygons ∧ checkFeaturesOverlap p item.2 = true ∧
             turf_difference p item.2 = Normal (Some final)).
Proof.
  revert currentPolygon replaced.
  induction existingPolygons as [|[g e] rest IH]; intros c r; simpl.
  { intros [= <- <-]. by left. }
  destruct (checkFeaturesOverlap c e) eqn:Ho; simpl.
  - destruct (isFullyEnclosed e c); [done|].
    destruct (isFullyEnclosed c e); [done|].
    destruct (trimPolygon c e) as [t|] eqn:Ht; [|done].
    intros Hloop. right.
    destruct (IH _ _ Hloop) as [[Hfinal Hflag]|[Hflag (item & p & Hin & Hov & Hd)]].
    + split; [done|]. exists (g, e), c. simpl.
      split; [left|]. split; [exact Ho|].
      unfold trimPolygon in Ht. rewrite Hfinal.
      by destruct (turf_difference c e) as [[?|]|]; simplify_eq/=.
    + split; [done|]. exists item, p. split; [by right|done].
  - intros Hloop.
    destruct (IH _ _ Hloop) as [?|[Hflag (item & p & Hin & Hov & Hd)]]; [by left|].
    right. split; [done|]. exists item, p. split; [by right|done].
Qed.

(** X4.  The geometry of a trimmed feature is never made up by the engine:
    it is what [turf.difference] returned for some polygon against the
    polygonal form of a stored feature that this polygon overlaps. *)
Theorem trimmed_geometry_is_a_difference newFeature existingFeatures trimmed :
  validateAndTrimFeature newFeature existingFeatures = Normal (Accepted trimmed) →
  ∃ f e p,
    f ∈ existingFeatures ∧
    getFeatureAsPolygon f = Normal (Some e) ∧
    checkFeaturesOverlap p e = true ∧
    turf_difference p e = Normal (Some (geometry trimmed)).
Proof.
  unfold validateAndTrimFeature.
  destruct (decide _); [done|].
  destruct (getFeatureAsPolygon newFeature) as [[np|]|]; simpl; [|done|done].
  destruct (existingPolygonsOf existingFeatures) as [eps|] eqn:Hex; simpl; [|done].
  destruct (trimLoop np false eps) as [r|[c []]] eqn:Hloop; intros [= Hr].
  - apply trimLoop_early_result in Hloop as [Hv _]. by rewrite Hr in Hv.
  - destruct (trimLoop_end _ _ _ _ _ Hloop) as [[_ ?]|[_ ([f e] & p & Hin & Hov & Hd)]];
      [done|].
    destruct (existingPolygonsOf_elem _ _ _ _ Hex Hin) as [Hf He].
    exists f, e, p. subst trimmed. done.
Qed.

(** X5.  A candidate that overlaps the one stored polygon without either
    containing the other is accepted with the difference as its geometry and
    its own properties. *)
Theorem validateAndTrimFeature_trims newFeature f newPolygon existingPolygon difference :
  getFeatureAsPolygon newFeature = Normal (Some newPolygon) →
  getFeatureAsPolygon f = Normal (Some existingPolygon) →
  checkFeaturesOverlap newPolygon existingPolygon = true →
  isFullyEnclosed existingPolygon newPolygon = false →
  isFullyEnclosed newPolygon existingPolygon = false →
  turf_difference newPolygon existingPolygon = Normal (Some difference) →
  validateAndTrimFeature newFeature [f] =
  Normal (Accepted {| geometry := difference; properties := properties newFeature |}).
Proof.
  intros Hnew Hf Hov H1 H2 Hd.
  rewrite (validateAndTrimFeature_converted _ _ _ _ Hnew
             (existingPolygonsOf_singleton _ _ Hf)).
  simpl. rewrite Hov, H1, H2. simpl. unfold trimPolygon. by rewrite Hd.
Qed.

(** X6.  Trimming a circle does not change what later validations compare
    against: the trimmed feature keeps centre and radius, and its polygonal
    form is again the full disc of the candidate, not the trimmed
    geometry. *)
Theorem trimmed_circle_keeps_full_disc newFeature existingFeatures result trimmed c r :
  shapeType (properties newFeature) = circle →
  center_and_radius newFeature = Some (c, r) →
  validateAndTrimFeature newFeature existingFeatures = Normal result →
  trimmedFeature result = Some trimmed →
  getFeatureAsPolygon trimmed = getFeatureAsPolygon newFeature ∧
  getFeatureAsPolygon trimmed = Some <$> circleToPolygon c r 64.
Proof.
  intros Hk Hcr Hv Ht.
  pose proof (validateAndTrimFeature_trimmed_properties _ _ _ _ Hv Ht) as Hp.
  assert (∀ g, properties g = properties newFeature →
               getFeatureAsPolygon g = Some <$> circleToPolygon c r 64) as Hform.
  { intros g Hg. unfold getFeatureAsPolygon, center_and_radius in *.
    rewrite Hg, Hk. simpl. by rewrite Hcr. }
  split; [|by apply Hform]. by rewrite (Hform trimmed), (Hform newFeature).
Qed.

(** X7.  A feature without a polygonal form - a line string, or a feature
    whose geometry is no polygon and which is not a circle with centre and
    radius - has area zero, whatever [turf.area] would say: it is not
    asked. *)
Theorem calculateArea_without_polygon turf_area feature :
  isPolygonalShape (shapeType (properties feature)) = false ∨
  (is_polygon_geometry (geometry feature) = false ∧
   (shapeType (properties feature) = circle → center_and_radius feature = None)) →
  calculateArea turf_area feature = Normal (number_lit 0).
Proof.
  intros [Hk|[Hg Hc]].
  - assert (shapeType (properties feature) = linestring) as Hl.
    { unfold isPolygonalShape in Hk. by destruct (shapeType (properties feature)). }
    unfold calculateArea, getFeatureAsPolygon. by rewrite decide_True.
  - unfold calculateArea.
    destruct (decide (shapeType (properties feature) = linestring)) as [Hl|Hl].
    + unfold getFeatureAsPolygon. by rewrite decide_True.
    + by rewrite getFeatureAsPolygon_by_geometry, Hg.
Qed.
End EngineFurther.

(** * Further properties of the store *)

Section StoreFurther.
Context {number : Type} `{!JsNumber number} `{!Turf number}.

Implicit Types (state : MapState number) (featureData f : MapFeature number).
Implicit Types (action : Action number) (actions : list (Action number)).
Implicit Types (l : list (MapFeature number)).

(** X8.  When [addFeature] returns [true] the collection has grown by one
    feature at its end.  The feature bears the fresh identifier and
    timestamp and otherwise the properties of the candidate; its geometry is
    the candidate's, or else the success message says that the shape was
    trimmed.  The drawing mode is switched off, the error is cleared and the
    limits stay. *)
Theorem addFeature_success_appends state featureData uuid now state' :
  addFeature state featureData uuid now = (Normal true, state') →
  ∃ f,
    features state' = features state ++ [f] ∧
    properties f = properties (newFeatureOf featureData uuid now) ∧
    ((geometry f = geometry featureData ∧
      successMessage state' =
        Some (ShapeType_to_string (shapeType (properties featureData))
              +:+ " added successfully")) ∨
     successMessage state' = Some "Shape auto-trimmed to avoid overlap") ∧
    drawingMode state' = None ∧
    errorMessage state' = None ∧
    shapeLimits state' = shapeLimits state.
Proof.
  unfold addFeature, addFeatureWith.
  destruct (isShapeLimitReached _ _); [done|].
  destruct (validateAndTrimFeature _ _) as [r|] eqn:Hv; [|done].
  destruct (isValid r); simpl; [|done].
  intros [= <-]. simpl.
  destruct (trimmedFeature r) as [t|] eqn:Ht; simpl.
  - exists t. split; [done|]. split; [|by eauto].
    by apply (validateAndTrimFeature_trimmed_properties _ _ _ _ Hv Ht).
  - eexists. split; [done|]. split; [done|]. split; [by left|done].
Qed.

(** X9.  The statistics panel adds up: every stored feature is counted
    under exactly one kind, so Total is Polygons plus Lines. *)
Theorem statistics_add_up state :
  statTotal state = (statPolygons state + statLines state)%nat.
Proof.
  unfold statTotal, statPolygons, statLines, getShapeCounts.
  induction (features state) as [|f l IH]; [done|].
  rewrite !filter_cons. simpl length at 1. rewrite IH.
  destruct (shapeType (properties f)); simpl; lia.
Qed.

(** X10.  A successful [addFeature] raises the count of the candidate's
    kind by one, leaves the other counts, and keeps the raised count within
    the limit. *)
Theorem addFeature_success_counts state featureData uuid now state' shapeType' :
  addFeature state featureData uuid now = (Normal true, state') →
  getShapeCounts state' shapeType' =
    (getShapeCounts state shapeType' +
     if decide (shapeType (properties featureData) = shapeType') then 1 else 0)%nat ∧
  (Z.of_nat (getShapeCounts state' (shapeType (properties featureData))) ≤
   shapeLimits state' (shapeType (properties featureData)))%Z.
Proof.
  intros Hadd. unfold addFeature in Hadd.
  destruct (addFeatureWith_cases validateAndTrimFeature state featureData uuid now)
    as [[_ H]|[(_ & _ & H)|[(r & _ & _ & _ & H)|(r & s & Hlim & Hv & _ & H & Hf & Hl)]]];
    rewrite H in Hadd; try done.
  injection Hadd as <-.
  assert (∀ k, getShapeCounts s k =
               (getShapeCounts state k +
                if decide (shapeType (properties featureData) = k) then 1 else 0)%nat) as Hc.
  { intros k. by rewrite (getShapeCounts_snoc _ _ _ _ Hf), (featureToAdd_shapeType _ _ _ _ _ Hv). }
  split; [apply Hc|]. rewrite Hc, Hl, decide_True by done.
  unfold isShapeLimitReached in Hlim.
  rewrite Z.geb_leb in Hlim. apply Z.leb_gt in Hlim. lia.
Qed.

(** [setDrawingMode] never switches to a kind whose limit is reached:
    afterwards the mode is the requested kind exactly when that kind is
    below its limit; it is off otherwise. *)
Lemma setDrawingMode_respects_limit mode state shapeType' :
  drawingMode (setDrawingMode mode state) = Some shapeType' ↔
  mode = Some shapeType' ∧ isShapeLimitReached state shapeType' = false.
Proof.
  destruct mode as [k|]; simpl.
  - destruct (isShapeLimitReached state k) eqn:Hk; simpl.
    + split; [done|]. intros [[= ->] ?]. congruence.
    + split; [intros [= ->]; done|]. by intros [-> _].
  - split; [done|]. by intros [? _].
Qed.


(** X12.  [removeFeature] leaves no feature with the identifier, is
    idempotent on the collection, and removals commute. *)
Theorem removeFeature_idempotent_commutes a b state :
  (a ∉ storedIds (removeFeature a state)) ∧
  features (removeFeature a (removeFeature a state)) = features (removeFeature a state) ∧
  features (removeFeature a (removeFeature b state)) =
  features (removeFeature b (removeFeature a state)).
Proof.
  unfold storedIds. simpl. split; [|split].
  - rewrite list_elem_of_fmap. intros (f & Hid & Hf).
    apply list_elem_of_filter in Hf as [Hne _]. by apply Hne.
  - rewrite list_filter_filter. apply list_filter_iff. tauto.
  - rewrite !list_filter_filter. apply list_filter_iff. tauto.
Qed.

(** X13.  Adding a feature under an identifier that is not in the store and
    removing that identifier again gives back the collection. *)
Theorem add_then_remove_restores state featureData uuid now state' :
  uuid ∉ storedIds state →
  addFeature state featureData uuid now = (Normal true, state') →
  features (removeFeature uuid state') = features state.
Proof.
  intros Hfresh Hadd. unfold addFeature in Hadd.
  destruct (addFeatureWith_cases validateAndTrimFeature state featureData uuid now)
    as [[_ H]|[(_ & _ & H)|[(r & _ & _ & _ & H)|(r & s & _ & Hv & _ & H & Hf & _)]]];
    rewrite H in Hadd; try done.
  injection Hadd as <-.
  simpl. rewrite Hf, filter_app, filter_cons_False, filter_nil, app_nil_r.
  - clear Hf H Hv. unfold storedIds in Hfresh.
    induction (features state) as [|g l IH]; [done|].
    rewrite fmap_cons, not_elem_of_cons in Hfresh. destruct Hfresh as [Hg Hl].
    rewrite filter_cons_True by done. f_equal. by apply IH.
  - intros Hne. apply Hne.
    destruct (trimmedFeature r) as [t|] eqn:Ht; simpl; [|done].
    by rewrite (validateAndTrimFeature_trimmed_properties _ _ _ _ Hv Ht).
Qed.

(** X14.  [updateFeature] keeps the number of features, changes nothing
    when no feature bears the identifier or when the update is empty, and
    applying the same update twice is the same as applying it once. *)
Theorem updateFeature_edges id' updates state :
  length (features (updateFeature id' updates state)) = length (features state) ∧
  (id' ∉ storedIds state → features (updateFeature id' updates state) = features state) ∧
  (geometry_update updates = None → properties_update updates = None →
   features (updateFeature id' updates state) = features state) ∧
  features (updateFeature id' updates (updateFeature id' updates state)) =
  features (updateFeature id' updates state).
Proof.
  unfold storedIds. simpl. split; [by rewrite length_map|]. split; [|split].
  - induction (features state) as [|f l IH]; [done|]. simpl.
    rewrite not_elem_of_cons. intros [Hf Hl].
    rewrite decide_False by done. f_equal. by apply IH.
  - intros Hg Hp. induction (features state) as [|f l IH]; [done|]. simpl.
    rewrite IH. f_equal. destruct (decide _); [|done].
    unfold applyUpdates. rewrite Hg, Hp. by destruct f.
  - induction (features state) as [|f l IH]; [done|]. simpl.
    rewrite IH. f_equal.
    destruct (decide (id (properties f) = id')) as [Hf|Hf]; [|by rewrite decide_False].
    destruct (decide _) as [_|_]; [|done].
    unfold applyUpdates. simpl.
    by destruct (geometry_update updates), (properties_update updates).
Qed.

(** X15.  Lowering a limit to the current count or below evicts nothing,
    and from then on the store refuses that kind: [addFeature] returns
    [false] with the new limit in its message and [setDrawingMode] leaves
    drawing off. *)
Theorem lowered_limit_blocks limits state shapeType' limit featureData uuid now :
  limits shapeType' = Some limit →
  (limit ≤ Z.of_nat (getShapeCounts state shapeType'))%Z →
  shapeType (properties featureData) = shapeType' →
  features (updateShapeLimits limits state) = features state ∧
  addFeature (updateShapeLimits limits state) featureData uuid now =
    (Normal false,
     withError (updateShapeLimits limits state) (limitMessage limit shapeType')) ∧
  drawingMode (setDrawingMode (Some shapeType') (updateShapeLimits limits state)) = None.
Proof.
  intros Hl Hle Hk. split; [done|].
  assert (isShapeLimitReached (updateShapeLimits limits state) shapeType' = true) as Hr.
  { unfold isShapeLimitReached, getShapeCounts. simpl. rewrite Hl. simpl.
    by apply Z.geb_le. }
  split.
  - unfold addFeature, addFeatureWith. rewrite Hk, Hr. simpl. by rewrite Hl.
  - simpl. by rewrite Hr.
Qed.

(** X16.  After [clearAllFeatures] a candidate of any kind with a positive
    limit is added as it is, provided its conversion does not throw: the
    collection consists of that feature. *)
Theorem clear_then_add state featureData uuid now polygonalForm :
  (0 < shapeLimits state (shapeType (properties featureData)))%Z →
  getFeatureAsPolygon featureData = Normal polygonalForm →
  (addFeature (clearAllFeatures state) featureData uuid now).1 = Normal true ∧
  features (addFeature (clearAllFeatures state) featureData uuid now).2 =
  [newFeatureOf featureData uuid now].
Proof.
  intros Hpos Hform. unfold addFeature, addFeatureWith.
  assert (isShapeLimitReached (clearAllFeatures state)
            (shapeType (properties featureData)) = false) as ->.
  { unfold isShapeLimitReached, getShapeCounts. simpl.
    rewrite Z.geb_leb. apply Z.leb_gt. lia. }
  assert (validateAndTrimFeature (newFeatureOf featureData uuid now) [] =
          Normal AcceptedUnchanged) as Hv.
  { unfold validateAndTrimFeature. destruct (decide _); [done|].
    rewrite getFeatureAsPolygon_newFeatureOf, Hform. simpl.
    by destruct polygonalForm. }
  change (features (clearAllFeatures state)) with (@nil (MapFeature number)).
  by rewrite Hv.
Qed.

(** Removing an identifier borne by a feature of a kind lowers the count
    of that kind. *)
Lemma count_after_removal f l :
  f ∈ l →
  (length (filter (λ g, shapeType (properties g) = shapeType (properties f))
                  (filter (λ g, id (properties g) ≠ id (properties f)) l)) <
   length (filter (λ g, shapeType (properties g) = shapeType (properties f)) l))%nat.
Proof.
  induction 1 as [f l|f g l Hin IH].
  - rewrite filter_cons_False by (intros Hne; by apply Hne).
    rewrite (filter_cons_True _ f) by done. simpl.
    pose proof (count_filter_le (λ g, shapeType (properties g) = shapeType (properties f))
                  (λ g, id (properties g) ≠ id (properties f)) l). lia.
  - rewrite (filter_cons (λ g, id (properties g) ≠ id (properties f))).
    rewrite (filter_cons (λ g, shapeType (properties g) = shapeType (properties f)) g l).
    destruct (decide (id (properties g) ≠ id (properties f))).
    + rewrite filter_cons. destruct (decide _); simpl; lia.
    + destruct (decide _); simpl; lia.
Qed.

(** X17.  Removing a stored feature frees a slot of its kind: if the count
    of the kind was within its limit, the limit is not reached after the
    removal, and [setDrawingMode] switches to that kind. *)
Theorem removal_frees_a_slot state f :
  f ∈ features state →
  (Z.of_nat (getShapeCounts state (shapeType (properties f))) ≤
   shapeLimits state (shapeType (properties f)))%Z →
  isShapeLimitReached (removeFeature (id (properties f)) state)
    (shapeType (properties f)) = false ∧
  drawingMode (setDrawingMode (Some (shapeType (properties f)))
                 (removeFeature (id (properties f)) state)) =
  Some (shapeType (properties f)).
Proof.
  intros Hin Hle.
  assert (isShapeLimitReached (removeFeature (id (properties f)) state)
            (shapeType (properties f)) = false) as Hfree.
  { unfold isShapeLimitReached, getShapeCounts in *. simpl.
    pose proof (count_after_removal f _ Hin).
    rewrite Z.geb_leb. apply Z.leb_gt. lia. }
  split; [done|]. simpl. by rewrite Hfree.
Qed.

(** A call that keeps identifiers apart keeps them distinct. *)
Lemma step_keeps_ids_distinct state action :
  keepsIdsApart state action = true →
  NoDup (storedIds state) → NoDup (storedIds (step state action)).
Proof.
  intros Hkeep Hnd. unfold storedIds in *.
  destruct action as [mode|featureData uuid now|id'|id' updates| | | | | | |limits];
    simpl in *; try done.
  - destruct mode as [k|]; simpl; [|done]. by destruct (isShapeLimitReached state k).
  - apply bool_decide_eq_true in Hkeep.
    unfold addFeature.
    destruct (addFeatureWith_cases validateAndTrimFeature state featureData uuid now)
      as [[_ ->]|[(_ & _ & ->)|[(r & _ & _ & _ & ->)|(r & s & _ & Hv & _ & -> & Hf & _)]]];
      simpl; try done.
    rewrite Hf, fmap_app. apply NoDup_app. split; [done|]. split.
    + intros x Hx Hx'. apply list_elem_of_singleton in Hx'. subst x.
      apply Hkeep. destruct (trimmedFeature r) as [t|] eqn:Ht; simpl in Hx; [|done].
      by rewrite (validateAndTrimFeature_trimmed_properties _ _ _ _ Hv Ht) in Hx.
    + apply NoDup_singleton.
  - induction (features state) as [|f l IH]; [done|].
    simpl in Hnd. apply NoDup_cons in Hnd as [Hf Hl].
    rewrite filter_cons. destruct (decide _); [|by apply IH].
    simpl. apply NoDup_cons. split; [|by apply IH].
    rewrite list_elem_of_fmap in *. intros (g & Hid & Hg).
    apply Hf. exists g. split; [done|]. by apply list_elem_of_filter in Hg as [_ ?].
  - assert (map (λ f, id (properties f))
              (map (λ f, if decide (id (properties f) = id')
                         then applyUpdates f updates else f) (features state)) =
            map (λ f, id (properties f)) (features state)) as ->; [|done].
    clear Hnd. induction (features state) as [|f l IH]; [done|]. simpl. rewrite IH. f_equal.
    destruct (decide _) as [Hid|_]; [|done].
    unfold applyUpdates. destruct (properties_update updates) as [p|] eqn:Hu; simpl; [|done].
    apply bool_decide_eq_true in Hkeep. congruence.
  - apply NoDup_nil_2.
  - unfold exportGeoJSON. by destruct (decide _).
Qed.

(** X18.  Identifiers stay distinct: along any run from the initial store
    in which every [addFeature] is given an identifier not yet in the store
    and no [updateFeature] renames a feature, no two stored features share
    an identifier. *)
Theorem stored_ids_distinct actions :
  allKeepIdsApart initialState actions = true →
  NoDup (storedIds (run initialState actions)).
Proof.
  assert (∀ state, allKeepIdsApart state actions = true →
                   NoDup (storedIds state) → NoDup (storedIds (run state actions))) as H.
  { induction actions as [|a actions IH]; intros state Hall Hnd; [done|].
    simpl in Hall. apply andb_prop in Hall as [Ha Hall].
    apply (IH (step state a) Hall). by apply step_keeps_ids_distinct. }
  intros Hall. apply (H initialState Hall). apply NoDup_nil_2.
Qed.
End StoreFurther.

(** * Properties of the drawing handler, the feature layer and the export *)

Section DrawingProperties.
Context {number : Type} `{!JsNumber number} `{!Turf number}.
Variable haversineMeters : LatLng number → LatLng number → number.

Implicit Types (clicked : list (LatLng number)) (a b p : LatLng number).
Implicit Types (drawingState : DrawingState number).
Implicit Types (state : MapState number) (featureData : MapFeature number).

(** X19.  [createPolygon] hands nothing to the store for fewer than three
    points.  For three or more it hands over a polygon of one ring that
    runs through the points in order and ends where it begins, so the ring
    has one position more than there are points. *)
Theorem createPolygon_closes_ring clicked shapeType' :
  (createPolygon clicked shapeType' = None ↔ (length clicked < 3)%nat) ∧
  ∀ featureData,
    createPolygon clicked shapeType' = Some featureData →
    ∃ ring,
      geometry featureData = Polygon [ring] ∧
      shapeType (properties featureData) = shapeType' ∧
      length ring = S (length clicked) ∧
      take (length clicked) ring = map positionOf clicked ∧
      head ring = last ring.
Proof.
  unfold createPolygon. destruct (decide (length clicked < 3)%nat) as [Hlt|Hge].
  - split; [done|]. done.
  - split; [split; [done|lia]|].
    intros featureData [= <-]. eexists. split; [done|]. split; [done|].
    destruct clicked as [|first rest]; [simpl in Hge; lia|].
    split; [|split].
    + rewrite length_app, length_map. simpl. lia.
    + rewrite take_app_length'; [done|]. by rewrite length_map.
    + by rewrite last_snoc.
Qed.

(** X20.  What the polygon and rectangle tools hand over always has a
    polygonal form, its own geometry, so the engine never lets it through
    unchecked. *)
Theorem drawn_polygons_have_polygonal_form clicked shapeType' a b uuid now :
  shapeType' ≠ linestring → shapeType' ≠ circle →
  (∀ featureData,
     createPolygon clicked shapeType' = Some featureData →
     getFeatureAsPolygon (newFeatureOf featureData uuid now) =
     Normal (Some (geometry featureData))) ∧
  getFeatureAsPolygon (newFeatureOf (createRectangle a b) uuid now) =
  Normal (Some (geometry (createRectangle a b))).
Proof.
  intros Hl Hc. split; [|done].
  unfold createPolygon. destruct (decide _); [done|]. intros featureData [= <-].
  unfold getFeatureAsPolygon. simpl.
  rewrite decide_False by done. by rewrite decide_False by done.
Qed.

(** X21.  A line drawn through two or more points is added as it is
    whenever the limit of line strings is not reached, whatever is in the
    store. *)
Theorem drawn_line_is_added clicked featureData state uuid now :
  createLineString clicked = Some featureData →
  isShapeLimitReached state linestring = false →
  (addFeature state featureData uuid now).1 = Normal true ∧
  features (addFeature state featureData uuid now).2 =
  features state ++ [newFeatureOf featureData uuid now].
Proof.
  unfold createLineString. destruct (decide _); [done|]. intros [= <-] Hlim.
  set (line := {| geometry := LineString (map positionOf clicked);
                  properties := drawnProperties linestring None None |}).
  assert (shapeType (properties line) = linestring) as Hk by done.
  assert (validateAndTrimFeature (newFeatureOf line uuid now) (features state) =
          Normal AcceptedUnchanged) as Hv.
  { unfold validateAndTrimFeature. by rewrite decide_True. }
  unfold addFeature, addFeatureWith. by rewrite Hk, Hlim, Hv.
Qed.


(** Single clicks in polygon mode only collect points. *)
Lemma handleClicks_polygon drawingState clicked :
  handleClicks haversineMeters (Some polygon) drawingState clicked =
  ({| points := points drawingState ++ clicked;
      circleCenter := circleCenter drawingState;
      rectStart := rectStart drawingState |}, []).
Proof.
  revert drawingState. induction clicked as [|c rest IH]; intros ds; simpl.
  - rewrite app_nil_r. by destruct ds.
  - rewrite IH. simpl. by rewrite <- app_assoc.
Qed.

(** X23.  In polygon mode single clicks create nothing; after three or
    more of them a double click hands over the polygon through exactly the
    clicked points and empties the drawing state. *)
Theorem clicks_then_double_click_polygon clicked :
  (3 ≤ length clicked)%nat →
  (handleClicks haversineMeters (Some polygon) clearedDrawingState clicked).2 = [] ∧
  handleDoubleClick (Some polygon)
    (handleClicks haversineMeters (Some polygon) clearedDrawingState clicked).1 =
  (clearedDrawingState, createPolygon clicked polygon) ∧
  is_Some (createPolygon clicked polygon).
Proof.
  intros Hlen. rewrite handleClicks_polygon. simpl. split; [done|]. split.
  - unfold handleDoubleClick. simpl. by rewrite decide_True.
  - unfold createPolygon. rewrite decide_False by lia. by eexists.
Qed.

(** X24.  In rectangle mode the clicks pair up: every second click hands
    over the rectangle spanned by it and the click before, and after an
    even number of clicks the drawing state is empty again. *)
Theorem clicks_pair_up_to_rectangles (corners : list (LatLng number * LatLng number)) :
  handleClicks haversineMeters (Some rectangle) clearedDrawingState
    (corners ≫= (λ pair, [pair.1; pair.2])) =
  (clearedDrawingState, map (λ pair, createRectangle pair.1 pair.2) corners).
Proof.
  induction corners as [|[a b] rest IH]; [done|].
  change (((a, b) :: rest) ≫= (λ pair, [pair.1; pair.2]))
    with (a :: b :: (rest ≫= (λ pair : LatLng number * LatLng number, [pair.1; pair.2]))).
  simpl. simpl in IH. unfold clearedDrawingState in IH. by rewrite IH.
Qed.

(** X25.  A double click with too few points, or in a mode that is not
    completed by a double click, creates nothing and keeps the drawing
    state, the collected points included. *)
Theorem handleDoubleClick_too_early mode drawingState :
  (mode = polygon → (length (points drawingState) < 3)%nat) →
  (mode = linestring → (length (points drawingState) < 2)%nat) →
  handleDoubleClick (Some mode) drawingState = (drawingState, None).
Proof.
  intros Hp Hl. unfold handleDoubleClick.
  rewrite decide_False by (intros [Hm ?]; specialize (Hp Hm); lia).
  by rewrite decide_False by (intros [Hm ?]; specialize (Hl Hm); lia).
Qed.

(** X26.  The layer gives back what was clicked: a polygon or rectangle
    drawn through points and stored untrimmed is rendered as a polygon in
    the style of its kind through exactly those points, closed, each with
    latitude and longitude in Leaflet's order. *)
Theorem drawn_polygon_is_rendered_as_clicked clicked shapeType' featureData uuid now :
  shapeType' = polygon ∨ shapeType' = rectangle →
  createPolygon clicked shapeType' = Some featureData →
  FeatureRenderer (newFeatureOf featureData uuid now) =
  RenderedPolygon shapeType'
    [map (λ p, (Some (lat p), Some (lng p))) (clicked ++ option_list (head clicked))].
Proof.
  intros Hk. unfold createPolygon. destruct (decide _); [done|]. intros [= <-].
  unfold FeatureRenderer, center_and_radius. simpl.
  assert (map geoJSONToLatLng
            (map positionOf clicked ++
             match clicked with first :: _ => [positionOf first] | [] => [] end) =
          map (λ p, (Some (lat p), Some (lng p))) (clicked ++ option_list (head clicked))) as Hring.
  { rewrite !map_app. f_equal.
    - by rewrite map_map.
    - by destruct clicked. }
  destruct Hk as [-> | ->]; simpl; by rewrite Hring.
Qed.

(** X27.  A circle that was trimmed on its way into the store is drawn as
    the full circle of its centre and radius: the layer renders it exactly
    as it would render the untrimmed candidate, whatever the trimmed
    geometry is. *)
Theorem trimmed_circle_is_rendered_whole newFeature
    (existingFeatures : list (MapFeature number)) result trimmed c r :
  shapeType (properties newFeature) = circle →
  center_and_radius newFeature = Some (c, r) →
  validateAndTrimFeature newFeature existingFeatures = Normal result →
  trimmedFeature result = Some trimmed →
  FeatureRenderer trimmed = RenderedCircle (geoJSONToLatLng c) r ∧
  FeatureRenderer trimmed = FeatureRenderer newFeature.
Proof.
  intros Hk Hcr Hv Ht.
  pose proof (validateAndTrimFeature_trimmed_properties _ _ _ _ Hv Ht) as Hp.
  assert (∀ g, properties g = properties newFeature →
               FeatureRenderer g = RenderedCircle (geoJSONToLatLng c) r) as Hr.
  { intros g Hg. unfold FeatureRenderer, center_and_radius in *.
    rewrite Hg, Hk. simpl. by rewrite Hcr. }
  split; [by apply Hr|]. by rewrite (Hr trimmed), (Hr newFeature).
Qed.

(** X28.  The export lists the features in their order, each with its
    stored geometry, under keys that do not repeat; the identifier is the
    stored one, and a radius is exported exactly when it is present and not
    zero. *)
Theorem export_keeps_features (features : list (MapFeature number)) :
  map exportedGeometry (createGeoJSONExport features) = map geometry features ∧
  Forall2 (λ f e,
      NoDup (map fst (exportedProperties e)) ∧
      (∀ v, ("id", v) ∈ exportedProperties e ↔ v = StringValue (id (properties f))) ∧
      (∀ v, ("radius", v) ∈ exportedProperties e ↔
            ∃ r, radius (properties f) = Some r ∧ number_truthy r = true ∧
                 v = NumberValue r))
    features (createGeoJSONExport features).
Proof.
  split.
  { unfold createGeoJSONExport. by rewrite map_map. }
  induction features as [|f l IH]; constructor; [|done].
  unfold exportFeature. simpl.
  destruct (radius (properties f)) as [r|] eqn:Hr;
    [destruct (number_truthy r) eqn:Ht|];
    destruct (center (properties f)) as [c|] eqn:Hc; simpl;
    (split; [compute_done|]);
    (split; intros v; rewrite ?elem_of_cons, ?elem_of_nil;
       (split;
          [intuition (try congruence); simplify_eq; eauto
          |first [intros (r' & ? & ? & ->) | intros ->]; simplify_eq;
           try congruence; eauto 10])).
Qed.
End DrawingProperties.






(** * Further concrete runs *)

Import Sketches.

(** [innerSquare] against a store with [farSquare] and a path. *)
Lemma validateAndTrimFeature_without_overlap_witness :
  validateAndTrimFeature (stored "n" innerSquare) [stored "f" farSquare; stored "p" path] =
  Normal AcceptedUnchanged.
Proof.
  apply (validateAndTrimFeature_without_overlap
           (stored "n" innerSquare) [stored "f" farSquare; stored "p" path]
           (square 2 2 4 4) [(stored "f" farSquare, square 20 20 30 30)]);
    [reflexivity|reflexivity|].
  intros item Hin. apply list_elem_of_singleton in Hin. subst item. reflexivity.
Defined.

(** [shiftedSquare] against [outerSquare] gives the second of the five
    results. *)
Lemma validateAndTrimFeature_results_witness :
  validateAndTrimFeature (stored "n" shiftedSquare) [stored "o" outerSquare] =
    Normal (Accepted {| geometry := shiftedSquareTrimmed;
                        properties := properties (stored "n" shiftedSquare) |}) ∧
  (Accepted {| geometry := shiftedSquareTrimmed;
               properties := properties (stored "n" shiftedSquare) |}
     = AcceptedUnchanged ∨
   (∃ trimmedGeometry,
      Accepted {| geometry := shiftedSquareTrimmed;
                  properties := properties (stored "n" shiftedSquare) |} =
      Accepted {| geometry := trimmedGeometry;
                  properties := properties (stored "n" shiftedSquare) |}) ∨
   Accepted {| geometry := shiftedSquareTrimmed;
               properties := properties (stored "n" shiftedSquare) |}
     = RejectedEnclosesExisting ∨
   Accepted {| geometry := shiftedSquareTrimmed;
               properties := properties (stored "n" shiftedSquare) |}
     = RejectedEnclosedByExisting ∨
   Accepted {| geometry := shiftedSquareTrimmed;
               properties := properties (stored "n" shiftedSquare) |}
     = RejectedFullyConsumed).
Proof.
  split; [reflexivity|].
  apply (validateAndTrimFeature_results (stored "n" shiftedSquare) [stored "o" outerSquare]).
  reflexivity.
Defined.

(** The trimmed [shiftedSquare] is a difference against [outerSquare]. *)
Lemma trimmed_geometry_is_a_difference_witness :
  ∃ f e p,
    f ∈ [stored "o" outerSquare] ∧
    getFeatureAsPolygon f = Normal (Some e) ∧
    checkFeaturesOverlap p e = true ∧
    turf_difference p e = Normal (Some shiftedSquareTrimmed).
Proof.
  apply (trimmed_geometry_is_a_difference
           (stored "n" shiftedSquare) [stored "o" outerSquare]
           {| geometry := shiftedSquareTrimmed;
              properties := properties (stored "n" shiftedSquare) |}).
  reflexivity.
Defined.

(** [shiftedSquare] is trimmed by [outerSquare]. *)
Lemma validateAndTrimFeature_trims_witness :
  validateAndTrimFeature (stored "n" shiftedSquare) [stored "o" outerSquare] =
  Normal (Accepted {| geometry := shiftedSquareTrimmed;
                      properties := properties (stored "n" shiftedSquare) |}).
Proof.
  apply (validateAndTrimFeature_trims
           (stored "n" shiftedSquare) (stored "o" outerSquare)
           (square 5 5 15 15) (square 0 0 10 10) shiftedSquareTrimmed); reflexivity.
Defined.

(** [wideCircle] is trimmed by [cornerSquare]; the trimmed feature has the
    polygonal form of the whole circle. *)
Lemma trimmed_circle_keeps_full_disc_witness :
  let trimmed := {| geometry := wideCircleTrimmed;
                    properties := properties (stored "w" wideCircle) |} in
  validateAndTrimFeature (stored "w" wideCircle) [stored "k" cornerSquare] =
    Normal (Accepted trimmed) ∧
  getFeatureAsPolygon trimmed = getFeatureAsPolygon (stored "w" wideCircle) ∧
  getFeatureAsPolygon trimmed = Some <$> circleToPolygon [0; 0]%Q 5000%Q 64.
Proof.
  split; [reflexivity|].
  apply (trimmed_circle_keeps_full_disc
           (stored "w" wideCircle) [stored "k" cornerSquare]
           (Accepted {| geometry := wideCircleTrimmed;
                        properties := properties (stored "w" wideCircle) |})
           {| geometry := wideCircleTrimmed;
              properties := properties (stored "w" wideCircle) |}
           [0; 0]%Q 5000%Q); reflexivity.
Defined.

(** The area of a path, with an area function that would throw. *)
Lemma calculateArea_without_polygon_witness :
  calculateArea noArea (stored "p" path) = Normal 0%Q.
Proof.
  change (calculateArea noArea (stored "p" path) = Normal (number_lit 0)).
  apply (calculateArea_without_polygon noArea (stored "p" path)).
  left. reflexivity.
Defined.

(** [shiftedSquare] added to a store that holds [outerSquare]. *)
Lemma addFeature_success_appends_witness :
  let state := storeWith (stored "o" outerSquare) in
  let state' := (addFeature state shiftedSquare "n" stamp).2 in
  addFeature state shiftedSquare "n" stamp = (Normal true, state') ∧
  ∃ f,
    features state' = features state ++ [f] ∧
    properties f = properties (newFeatureOf shiftedSquare "n" stamp) ∧
    ((geometry f = geometry shiftedSquare ∧
      successMessage state' =
        Some (ShapeType_to_string (shapeType (properties shiftedSquare))
              +:+ " added successfully")) ∨
     successMessage state' = Some "Shape auto-trimmed to avoid overlap") ∧
    drawingMode state' = None ∧
    errorMessage state' = None ∧
    shapeLimits state' = shapeLimits state.
Proof.
  split; [reflexivity|].
  apply (addFeature_success_appends (storeWith (stored "o" outerSquare))
           shiftedSquare "n" stamp).
  reflexivity.
Defined.

(** The counts after that addition. *)
Lemma addFeature_success_counts_witness :
  let state := storeWith (stored "o" outerSquare) in
  let state' := (addFeature state shiftedSquare "n" stamp).2 in
  getShapeCounts state' rectangle = 2%nat ∧
  getShapeCounts state' rectangle =
    (getShapeCounts state rectangle +
     if decide (shapeType (properties shiftedSquare) = rectangle) then 1 else 0)%nat ∧
  (Z.of_nat (getShapeCounts state' (shapeType (properties shiftedSquare))) ≤
   shapeLimits state' (shapeType (properties shiftedSquare)))%Z.
Proof.
  split; [reflexivity|].
  apply (addFeature_success_counts (storeWith (stored "o" outerSquare))
           shiftedSquare "n" stamp).
  reflexivity.
Defined.

(** Adding [farSquare] under a new identifier and removing it again. *)
Lemma add_then_remove_restores_witness :
  let state := storeWith (stored "o" outerSquare) in
  features (removeFeature "n" (addFeature state farSquare "n" stamp).2) = features state.
Proof.
  apply (add_then_remove_restores (storeWith (stored "o" outerSquare))
           farSquare "n" stamp).
  - intros Hin. apply list_elem_of_singleton in Hin. discriminate Hin.
  - reflexivity.
Defined.

(** Five circles are stored and the limit of circles is lowered to three. *)
Lemma lowered_limit_blocks_witness :
  let state := updateShapeLimits threeCircles fiveCirclesAndPath in
  getShapeCounts state circle = 5%nat ∧
  features state = features fiveCirclesAndPath ∧
  addFeature state (drawnCircle 50 0 1000) "c6" stamp =
    (Normal false, withError state "Maximum 3 circles reached") ∧
  drawingMode (setDrawingMode (Some circle) state) = None.
Proof.
  split; [reflexivity|].
  apply (lowered_limit_blocks threeCircles fiveCirclesAndPath circle 3%Z
           (drawnCircle 50 0 1000) "c6" stamp); [reflexivity| |reflexivity].
  vm_compute. intros H. discriminate H.
Defined.

(** [outerSquare] added after the store was cleared. *)
Lemma clear_then_add_witness :
  (addFeature (clearAllFeatures fiveCirclesAndPath) outerSquare "n" stamp).1 = Normal true ∧
  features (addFeature (clearAllFeatures fiveCirclesAndPath) outerSquare "n" stamp).2 =
  [newFeatureOf outerSquare "n" stamp].
Proof.
  apply (clear_then_add fiveCirclesAndPath outerSquare "n" stamp
           (Some (square 0 0 10 10))); reflexivity.
Defined.

(** With five circles the limit of circles is reached; removing the third
    one frees a slot. *)
Lemma removal_frees_a_slot_witness :
  let third := stored "c3" (drawnCircle 20 0 1000) in
  isShapeLimitReached fiveCirclesAndPath circle = true ∧
  isShapeLimitReached (removeFeature "c3" fiveCirclesAndPath) circle = false ∧
  drawingMode (setDrawingMode (Some circle) (removeFeature "c3" fiveCirclesAndPath)) =
  Some circle.
Proof.
  split; [reflexivity|].
  apply (removal_frees_a_slot fiveCirclesAndPath (stored "c3" (drawnCircle 20 0 1000))).
  - apply list_elem_of_In. right. right. left. reflexivity.
  - vm_compute. intros H. discriminate H.
Defined.

(** A run that reuses the identifier ["b"] only after its feature is gone. *)
Lemma stored_ids_distinct_witness :
  allKeepIdsApart initialState freshRun = true ∧
  storedIds (run initialState freshRun) = ["a"; "c"; "b"] ∧
  NoDup (storedIds (run initialState freshRun)).
Proof.
  split; [reflexivity|]. split; [reflexivity|].
  apply (stored_ids_distinct freshRun). reflexivity.
Defined.

(** A triangle drawn with the polygon tool, and a rectangle. *)
Lemma drawn_polygons_have_polygonal_form_witness :
  getFeatureAsPolygon (newFeatureOf triangle "t" stamp) = Normal (Some (geometry triangle)) ∧
  getFeatureAsPolygon (newFeatureOf (createRectangle (corner 0 0) (corner 4 3)) "t" stamp) =
  Normal (Some (geometry (createRectangle (corner 0 0) (corner 4 3)))).
Proof.
  destruct (drawn_polygons_have_polygonal_form triangleClicks polygon
              (corner 0 0) (corner 4 3) "t" stamp) as [Hpolygon Hrectangle];
    [intros H; discriminate H|intros H; discriminate H|].
  split; [|exact Hrectangle]. apply Hpolygon. reflexivity.
Defined.

(** A line through the three points, added to a store that holds
    [outerSquare]. *)
Lemma drawn_line_is_added_witness :
  let line := {| geometry := LineString (map positionOf triangleClicks);
                 properties := drawnProperties linestring None None |} in
  createLineString triangleClicks = Some line ∧
  (addFeature (storeWith (stored "o" outerSquare)) line "l" stamp).1 = Normal true ∧
  features (addFeature (storeWith (stored "o" outerSquare)) line "l" stamp).2 =
  features (storeWith (stored "o" outerSquare)) ++ [newFeatureOf line "l" stamp].
Proof.
  split; [reflexivity|].
  apply (drawn_line_is_added triangleClicks _ (storeWith (stored "o" outerSquare)) "l" stamp);
    reflexivity.
Defined.


(** Three clicks and a double click in polygon mode. *)
Lemma clicks_then_double_click_polygon_witness :
  (handleClicks distanceOrZero (Some polygon) clearedDrawingState triangleClicks).2 = [] ∧
  handleDoubleClick (Some polygon)
    (handleClicks distanceOrZero (Some polygon) clearedDrawingState triangleClicks).1 =
  (clearedDrawingState, createPolygon triangleClicks polygon) ∧
  is_Some (createPolygon triangleClicks polygon).
Proof.
  apply (clicks_then_double_click_polygon distanceOrZero triangleClicks).
  simpl. lia.
Defined.

(** A double click after two points in polygon mode. *)
Lemma handleDoubleClick_too_early_witness :
  let drawingState :=
    {| points := [corner 0 0; corner 4 0]; circleCenter := None; rectStart := None |} in
  handleDoubleClick (Some polygon) drawingState = (drawingState, None).
Proof.
  apply (handleDoubleClick_too_early polygon
           {| points := [corner 0 0; corner 4 0]; circleCenter := None;
              rectStart := None |}).
  - intros _. simpl. lia.
  - intros H. discriminate H.
Defined.

(** The triangle as the layer draws it. *)
Lemma drawn_polygon_is_rendered_as_clicked_witness :
  FeatureRenderer (newFeatureOf triangle "t" stamp) =
  RenderedPolygon polygon
    [[(Some 0, Some 0); (Some 0, Some 4); (Some 3, Some 0); (Some 0, Some 0)]%Q].
Proof.
  apply (drawn_polygon_is_rendered_as_clicked triangleClicks polygon triangle "t" stamp).
  - left. reflexivity.
  - reflexivity.
Defined.

(** The trimmed [wideCircle] is drawn as the circle of five kilometres. *)
Lemma trimmed_circle_is_rendered_whole_witness :
  let trimmed := {| geometry := wideCircleTrimmed;
                    properties := properties (stored "w" wideCircle) |} in
  FeatureRenderer trimmed = RenderedCircle (Some 0%Q, Some 0%Q) 5000%Q ∧
  FeatureRenderer trimmed = FeatureRenderer (stored "w" wideCircle).
Proof.
  apply (trimmed_circle_is_rendered_whole
           (stored "w" wideCircle) [stored "k" cornerSquare]
           (Accepted {| geometry := wideCircleTrimmed;
                        properties := properties (stored "w" wideCircle) |})
           {| geometry := wideCircleTrimmed;
              properties := properties (stored "w" wideCircle) |}
           [0; 0]%Q 5000%Q); reflexivity.
Defined.

(** The ring of the triangle. *)
Lemma createPolygon_closes_ring_witness :
  ∃ ring,
    geometry triangle = Polygon [ring] ∧
    shapeType (properties triangle) = polygon ∧
    length ring = 4%nat ∧
    take 3 ring = map positionOf triangleClicks ∧
    head ring = last ring.
Proof.
  destruct (createPolygon_closes_ring triangleClicks polygon) as [_ Hring].
  apply (Hring triangle). reflexivity.
Defined.

(** An update addressed to an identifier that no stored feature bears. *)
Lemma updateFeature_edges_witness :
  features (updateFeature "x" moveAway (storeWith (stored "o" outerSquare))) =
  features (storeWith (stored "o" outerSquare)).
Proof.
  destruct (updateFeature_edges "x" moveAway (storeWith (stored "o" outerSquare)))
    as (_ & Habsent & _).
  apply Habsent. intros Hin. apply list_elem_of_singleton in Hin. discriminate Hin.
Defined.
